(** * UVG Agent (Nuclia + Claude): the RAG glue layer, embedded in Rocq

    A shallow embedding of [app/nuclia.py], [app/agent.py] and [app/main.py].

    - JSON payloads are Python values ([value]): the code probes them with
      [.get], truthiness tests, [or]/[and], [in] and slicing, so the embedding
      keeps them dynamically typed and models the exceptions Python raises on
      a type mismatch.
    - Python [str] is modelled as [string], holding the UTF-8 encoding of the
      text: [strip] removes the white space of [str.strip], Unicode included;
      [lower] folds the ASCII letters and [text[:600]] counts bytes.
    - Python [float] is modelled as a rational ([Q]); [int] as [Z].
    - External services (the Nuclia SDK, HTTP, the LLM client) are oracles
      that answer as a function of the trace of calls made so far; every call
      is appended to the trace, so "which calls were made" is observable. *)

From Stdlib Require Import List String Ascii ZArith QArith Bool Lia.
From Stdlib Require Import DecimalString Sorted.
Import ListNotations.

Set Warnings "-register-all,-abstract-large-number".
Close Scope Q_scope.
Open Scope list_scope.
Open Scope string_scope.

(* ------------------------------------------------------------------ *)
(** ** Python values *)

Inductive value : Type :=
| VNone
| VBool (b : bool)
| VInt (z : Z)
| VFloat (q : Q)
| VStr (s : string)
| VBytes (b : list Byte.byte)
| VList (l : list value)
| VDict (d : list (string * value)).

(** The body of an HTTP response as [requests] exposes it: [r.status_code],
    [r.text], and [r.json()] ([None] when the body does not parse). *)
Record response : Type := mkResponse {
  status_code : Z;
  text : string;
  json : option value
}.

(** Exceptions.  [HTTPError] is [requests.HTTPError] (with its [response]
    attribute), [RequestException] any other [requests] failure (connection,
    timeout, invalid JSON), [ExternalError] a failure inside the Nuclia SDK or
    the LLM client, [HTTPException] FastAPI's exception, which the framework
    turns into a response with that status code and detail. *)
Inductive exn : Type :=
| AttributeError
| TypeError
| KeyError
| HTTPError (resp : option response)
| RequestException
| ExternalError
| HTTPException (status : Z) (detail : string).

Inductive result (A : Type) : Type :=
| Ok (a : A)
| Raise (e : exn).
Arguments Ok {A} a.
Arguments Raise {A} e.

Definition rbind {A B} (r : result A) (k : A -> result B) : result B :=
  match r with
  | Ok a => k a
  | Raise e => Raise e
  end.

Declare Scope result_scope.
Delimit Scope result_scope with result.
Notation "x <~ r ;; k" := (rbind r (fun x => k))
  (at level 100, r at next level, right associativity) : result_scope.
Open Scope result_scope.

(* ------------------------------------------------------------------ *)
(** ** Strings *)

Definition nl : string := String "010"%char EmptyString.
Definition dquote : string := String "034"%char EmptyString.

(** [s.startswith(p)] *)
Fixpoint starts_with (p s : string) : bool :=
  match p with
  | EmptyString => true
  | String a p' =>
      match s with
      | EmptyString => false
      | String b s' => Ascii.eqb a b && starts_with p' s'
      end
  end.

(** Python text is kept in its UTF-8 encoding.  [white_space] lists the
    characters [str.isspace] accepts, the ones [str.strip] removes: U+0009 to
    U+000D, U+001C to U+0020, U+0085, U+00A0, U+1680, U+2000 to U+200A,
    U+2028, U+2029, U+202F, U+205F and U+3000. *)
Definition utf8 (bytes : list nat) : string :=
  fold_right (fun n s => String (ascii_of_nat n) s) EmptyString bytes.

Definition white_space : list string :=
  map utf8
    [[9]; [10]; [11]; [12]; [13]; [28]; [29]; [30]; [31]; [32];
     [194; 133]; [194; 160]; [225; 154; 128];
     [226; 128; 128]; [226; 128; 129]; [226; 128; 130]; [226; 128; 131];
     [226; 128; 132]; [226; 128; 133]; [226; 128; 134]; [226; 128; 135];
     [226; 128; 136]; [226; 128; 137]; [226; 128; 138];
     [226; 128; 168]; [226; 128; 169]; [226; 128; 175]; [226; 129; 159];
     [227; 128; 128]]%nat.

(** [s[n:]] *)
Fixpoint drop (n : nat) (s : string) : string :=
  match n, s with
  | O, _ => s
  | S n', String _ s' => drop n' s'
  | S _, EmptyString => EmptyString
  end.

Definition reverse (s : string) : string :=
  string_of_list_ascii (rev (list_ascii_of_string s)).

(** The character of [chars] that [s] starts with, if any. *)
Definition leading (chars : list string) (s : string) : option string :=
  find (fun w => starts_with w s) chars.

(** Drops the characters of [chars] at the head of [s], one per unit of fuel;
    every character takes at least one byte, so the length of [s] is fuel
    enough ([strip_from_clean]). *)
Fixpoint strip_with (chars : list string) (fuel : nat) (s : string) : string :=
  match fuel with
  | O => s
  | S fuel' =>
      match leading chars s with
      | Some w => strip_with chars fuel' (drop (String.length w) s)
      | None => s
      end
  end.

Definition strip_from (chars : list string) (s : string) : string :=
  strip_with chars (String.length s) s.

Definition lstrip (s : string) : string := strip_from white_space s.

(** [rstrip] works on the reversed text, where a trailing character shows as
    its reversed encoding at the head. *)
Definition rstrip (s : string) : string :=
  reverse (strip_from (map reverse white_space) (reverse s)).

Definition strip (s : string) : string := rstrip (lstrip s).

(** [needle in hay] for two strings. *)
Fixpoint contains (needle hay : string) : bool :=
  starts_with needle hay ||
  match hay with
  | EmptyString => false
  | String _ hay' => contains needle hay'
  end.

(** [s.lower()], on the ASCII letters (the needles the code searches the
    lower-cased text for are ASCII). *)
Definition lower_ascii (c : ascii) : ascii :=
  let n := nat_of_ascii c in
  if (65 <=? n)%nat && (n <=? 90)%nat then ascii_of_nat (n + 32) else c.

Fixpoint lower (s : string) : string :=
  match s with
  | EmptyString => EmptyString
  | String c s' => String (lower_ascii c) (lower s')
  end.

(** [sep.join(parts)] *)
Fixpoint join (sep : string) (parts : list string) : string :=
  match parts with
  | [] => ""
  | [p] => p
  | p :: rest => p ++ sep ++ join sep rest
  end.

(** [str(n)] for an [int]. *)
Definition str_int (z : Z) : string := NilZero.string_of_int (Z.to_int z).

(* ------------------------------------------------------------------ *)
(** ** Python operators on values *)

(** Truth value testing. *)
Definition truthy (v : value) : bool :=
  match v with
  | VNone => false
  | VBool b => b
  | VInt z => negb (z =? 0)%Z
  | VFloat q => negb (Qeq_bool q 0)
  | VStr s => negb (s =? "")
  | VBytes b => match b with [] => false | _ => true end
  | VList l => match l with [] => false | _ => true end
  | VDict d => match d with [] => false | _ => true end
  end.

(** [a or b] *)
Definition py_or (a b : value) : value := if truthy a then a else b.

Fixpoint assoc (k : string) (d : list (string * value)) : option value :=
  match d with
  | [] => None
  | (k', v) :: d' => if k' =? k then Some v else assoc k d'
  end.

(** [d.get(k, default)]; only a dict has [.get]. *)
Definition get (d : value) (k : string) (default : value) : result value :=
  match d with
  | VDict kv => Ok (match assoc k kv with Some v => v | None => default end)
  | _ => Raise AttributeError
  end.

(** [d.get(key, default)] where the key is itself a run-time value.  The keys
    of a JSON object are strings: a list or dict key is unhashable, any other
    non-string key is simply absent. *)
Definition get_key (d : value) (key : value) (default : value) : result value :=
  match d with
  | VDict kv =>
      match key with
      | VStr k => Ok (match assoc k kv with Some v => v | None => default end)
      | VList _ | VDict _ => Raise TypeError
      | _ => Ok default
      end
  | _ => Raise AttributeError
  end.

(** [k in d] for a dict [d] *)
Definition has_key (k : string) (kv : list (string * value)) : bool :=
  match assoc k kv with Some _ => true | None => false end.

(** [d[k] = v]: replaces the value of an existing key in place, appends a new
    key at the end. *)
Fixpoint dict_set (k : string) (v : value) (d : list (string * value))
  : list (string * value) :=
  match d with
  | [] => [(k, v)]
  | (k', v') :: d' => if k' =? k then (k, v) :: d' else (k', v') :: dict_set k v d'
  end.

(** [v == s] for a string [s]: only an equal string compares equal. *)
Definition eq_str (s : string) (v : value) : bool :=
  match v with
  | VStr s' => s' =? s
  | _ => false
  end.

(** [needle in v] for a string needle: substring test on a string, membership
    on a list, key membership on a dict, [TypeError] on anything else. *)
Definition str_in (needle : string) (v : value) : result bool :=
  match v with
  | VStr s => Ok (contains needle s)
  | VList l => Ok (existsb (eq_str needle) l)
  | VDict d => Ok (has_key needle d)
  | _ => Raise TypeError
  end.

(** [v < threshold] against a float: numbers (and bools, which are ints)
    compare, everything else raises [TypeError]. *)
Definition lt_float (v : value) (threshold : Q) : result bool :=
  match v with
  | VInt z => Ok (negb (Qle_bool threshold (inject_Z z)))
  | VFloat q => Ok (negb (Qle_bool threshold q))
  | VBool b => Ok (negb (Qle_bool threshold (inject_Z (if b then 1 else 0))))
  | _ => Raise TypeError
  end.

(** [v.strip()], [v.lower()]: string methods. *)
Definition py_strip (v : value) : result string :=
  match v with
  | VStr s => Ok (strip s)
  | _ => Raise AttributeError
  end.

Definition py_lower (v : value) : result string :=
  match v with
  | VStr s => Ok (lower s)
  | _ => Raise AttributeError
  end.

(** Python's [l[:n]] on a list: a negative [n] counts from the end. *)
Definition list_slice_to {A} (n : Z) (l : list A) : list A :=
  if (0 <=? n)%Z then firstn (Z.to_nat n) l
  else firstn (List.length l - Z.to_nat (- n)) l.

(** [for x in v[:n]]: the elements the loop visits.  A list is sliced; a
    string is sliced and iterated character by character; nothing else can be
    sliced. *)
Definition slice_iter (v : value) (n : Z) : result (list value) :=
  match v with
  | VList l => Ok (list_slice_to n l)
  | VStr s =>
      Ok (map (fun c => VStr (String c EmptyString))
              (list_slice_to n (list_ascii_of_string s)))
  | _ => Raise TypeError
  end.

(** [for x in v]: list elements, string characters, dict keys. *)
Definition iter (v : value) : result (list value) :=
  match v with
  | VList l => Ok l
  | VStr s => Ok (map (fun c => VStr (String c EmptyString)) (list_ascii_of_string s))
  | VDict d => Ok (map (fun kv => VStr (fst kv)) d)
  | _ => Raise TypeError
  end.

(** [enumerate(l)] *)
Definition enumerate {A} (l : list A) : list (nat * A) :=
  combine (seq 0 (List.length l)) l.

(** [v[k]] for a string key: a dict is looked up ([KeyError] when the key is
    absent), anything else cannot be indexed by a string. *)
Definition subscript (v : value) (k : string) : result value :=
  match v with
  | VDict kv => match assoc k kv with Some x => Ok x | None => Raise KeyError end
  | _ => Raise TypeError
  end.

(** The number a numeric value stands for ([bool] is a subtype of [int]). *)
Definition as_number (v : value) : option Q :=
  match v with
  | VBool b => Some (inject_Z (if b then 1 else 0))
  | VInt z => Some (inject_Z z)
  | VFloat q => Some q
  | _ => None
  end.

(** Equality of two hashable values used as dict keys. *)
Definition key_eqb (a b : value) : bool :=
  match a, b with
  | VStr s, VStr t => s =? t
  | VNone, VNone => true
  | _, _ =>
      match as_number a, as_number b with
      | Some x, Some y => Qeq_bool x y
      | _, _ => false
      end
  end.

(** [round(q * 1000)] to the nearest integer, ties to even. *)
Definition round_half_even (q : Q) : Z :=
  let n := Qnum q in
  let d := Zpos (Qden q) in
  let fl := (n / d)%Z in
  let r2 := (2 * (n mod d))%Z in
  if (r2 <? d)%Z then fl
  else if (d <? r2)%Z then (fl + 1)%Z
  else if Z.even fl then fl else (fl + 1)%Z.

(** [round(v, 3)]: an [int] is returned unchanged, a float is rounded to
    three decimals, anything else has no [__round__]. *)
Definition round3 (v : value) : result value :=
  match v with
  | VInt z => Ok (VInt z)
  | VBool b => Ok (VInt (if b then 1 else 0))
  | VFloat q => Ok (VFloat (Qmake (round_half_even (Qmult q (inject_Z 1000))) 1000))
  | _ => Raise TypeError
  end.

(* ------------------------------------------------------------------ *)
(** ** External calls and the effect monad *)

(** One call that leaves the process. *)
Inductive call : Type :=
| SdkResourceGet (rid : value)
| SdkTemporalDownloadUrl (rid : value) (file_id : string) (ttl : Z)
| SdkDownloadFile (rid file_id : string)
| RequestsGet (url : string) (headers : list (string * value)) (params : value)
| RequestsPost (url : string) (headers : list (string * value)) (body : value)
| MessagesCreate (model system content : string) (max_tokens : Z) (temperature : Q).

(** The mutable state of one request: the trace of external calls made so
    far, and [resources_cache], the per-request memo of
    [extract_sources_info] (a local of that function, reset on entry). *)
Record store : Type := mkStore {
  calls : list call;
  resources_cache : list (value * value)
}.

Definition M (A : Type) : Type := store -> result A * store.

Definition ret {A} (a : A) : M A := fun st => (Ok a, st).

Definition bind {A B} (m : M A) (k : A -> M B) : M B :=
  fun st =>
    match m st with
    | (Ok a, st') => k a st'
    | (Raise e, st') => (Raise e, st')
    end.

Definition raise {A} (e : exn) : M A := fun st => (Raise e, st).

Definition lift {A} (r : result A) : M A := fun st => (r, st).

(** [try: body except Exception as e: handler(e)]; whatever the body did to
    the store before it raised stays done. *)
Definition try_except {A} (body : M A) (handler : exn -> M A) : M A :=
  fun st =>
    match body st with
    | (Ok a, st') => (Ok a, st')
    | (Raise e, st') => handler e st'
    end.

(** An external call: the oracle answers from the trace so far, and the call
    is recorded. *)
Definition external {A} (c : call) (answer : list call -> result A) : M A :=
  fun st =>
    (answer (calls st),
     mkStore (calls st ++ [c])%list (resources_cache st)).

Declare Scope monad_scope.
Delimit Scope monad_scope with monad.
Notation "x <- m ;; k" := (bind m (fun x => k))
  (at level 100, m at next level, right associativity) : monad_scope.
Notation "' pat <- m ;; k" := (bind m (fun x => match x with pat => k end))
  (at level 100, pat pattern, m at next level, right associativity) : monad_scope.
Open Scope monad_scope.

(** [r.raise_for_status()]: [requests] raises [HTTPError] for a 4xx or 5xx
    status. *)
Definition raise_for_status (r : response) : result unit :=
  if (400 <=? status_code r)%Z && (status_code r <? 600)%Z
  then Raise (HTTPError (Some r))
  else Ok tt.

(** [r.json()] *)
Definition response_json (r : response) : result value :=
  match json r with
  | Some v => Ok v
  | None => Raise RequestException
  end.

(* ------------------------------------------------------------------ *)
(** ** Request and response types of the HTTP surface *)

(** The request bodies of [app/schemas.py]. *)
Record AskBody : Type := mkAskBody {
  ask_query : string;
  ask_size : option Z;
  ask_max_chunks : option Z;
  ask_use_semantic : option bool;
  ask_min_score : option Q
}.

Record ConversationContext : Type := mkConversationContext {
  author : string;
  ctx_text : string
}.

Record CustomPrompt : Type := mkCustomPrompt {
  prompt_system : option string;
  prompt_user : option string;
  prompt_rephrase : option string
}.

Record NucliaAskBody : Type := mkNucliaAskBody {
  nq_query : string;
  nq_context : option (list ConversationContext);
  nq_rephrase : option bool;
  nq_citations : option string;
  nq_filters : option (list string);
  nq_prompt : option CustomPrompt;
  nq_synchronous : option bool;
  nq_features : option (list string);
  nq_max_tokens : option Z
}.

(** A [StreamingResponse]: media type, headers and the chunks of the body. *)
Record StreamingResponse : Type := mkStreamingResponse {
  media_type : value;
  headers : list (string * string);
  body_chunks : list (list Byte.byte)
}.

(* ------------------------------------------------------------------ *)
(** ** Scenarios: concrete configurations, services and payloads *)

Module Scenario.

Definition base : string := "https://nuclia.cloud/api/v1".
Definition kb : string := "kb1".
Definition hdrs : list (string * value) :=
  [("X-NUCLIA-SERVICEACCOUNT", VStr "Bearer key")].
Definition model : string := "claude-sonnet".
Definition instructions : string := "Responde usando solo el contexto.".
Definition repr (v : value) : string := "<value>".
Definition str_exn (e : exn) : string := "error".
Definition preprocess (q : string) : string := q.

Definition st0 : store := mkStore [] [].

(** A resource with one PDF file field, as the SDK describes it. *)
Definition pdf_resource : value :=
  VDict [("data", VDict [("files", VDict [("f1", VDict [("value", VDict [("file",
    VDict [("content_type", VStr "application/pdf");
           ("size", VInt 1024);
           ("filename", VStr "guia.pdf")])])])])])].

(** Services that answer, and services that are down. *)
Definition sdk_get_ok (h : list call) (rid : value) : result value :=
  Ok pdf_resource.
Definition sdk_get_down (h : list call) (rid : value) : result value :=
  Raise ExternalError.
Definition sdk_url_ok (h : list call) (rid : value) (file_id : string) (ttl : Z)
  : result value :=
  Ok (VStr "https://files.example/f1?token=abc").
Definition sdk_url_down (h : list call) (rid : value) (file_id : string) (ttl : Z)
  : result value :=
  Raise ExternalError.
Definition sdk_download_ok (h : list call) (rid file_id : string)
  : result (list Byte.byte) :=
  Ok [Byte.x50; Byte.x4b; Byte.x03; Byte.x04].
Definition http_down (h : list call) (url : string) (params : value)
  : result response :=
  Raise RequestException.
Definition not_found : response := mkResponse 404 "kb not found" None.
Definition http_get_404 (h : list call) (url : string) (params : value)
  : result response :=
  Ok not_found.
Definition unavailable : response := mkResponse 503 "try later" None.
Definition http_post_503 (h : list call) (url : string)
    (headers : list (string * value)) (body : value) : result response :=
  Ok unavailable.
Definition http_post_down (h : list call) (url : string)
    (headers : list (string * value)) (body : value) : result response :=
  Raise RequestException.
Definition llm_ok (h : list call) (content : string) : result value :=
  Ok (VList [VDict [("text", VStr "respuesta")]]).

(** Hits and the resource map of a search payload. *)
Definition hit (t rid : string) (score : Q) : value :=
  VDict [("text", VStr t); ("rid", VStr rid); ("score", VFloat score);
         ("field", VStr "/f/file");
         ("position", VDict [("page_number", VInt 3)])].

Definition resources : value :=
  VDict [("r1", VDict [("title", VStr "Guia");
                       ("icon", VStr "application/pdf")]);
         ("r2", VDict [("title", VStr "Portal");
                       ("icon", VStr "application/stf-link");
                       ("origin", VDict [("url", VStr "https://uvg.edu.gt")])])].

Definition pdf_hit : value := hit "  uno " "r1" (Qmake 9 10).
Definition link_hit : value := hit "dos" "r2" (Qmake 8 10).
Definition blank_hit : value := hit " " "r1" (Qmake 7 10).
Definition other_hit : value := hit "tres" "r3" (Qmake 1 10).

(** A top-level payload ([nuclia_search]) with four hits. *)
Definition payload : value :=
  VDict [("paragraphs",
          VDict [("results", VList [pdf_hit; link_hit; blank_hit; other_hit])]);
         ("resources", resources)].

(** A payload whose first hit has an empty text. *)
Definition payload_gap : value :=
  VDict [("paragraphs", VDict [("results", VList [blank_hit; link_hit])]);
         ("resources", resources)].

(** A payload whose only hit has no ["score"]. *)
Definition payload_noscore : value :=
  VDict [("paragraphs",
          VDict [("results", VList [VDict [("text", VStr "hola");
                                           ("rid", VStr "r9")]])]);
         ("resources", VDict [])].

(** A payload with top-level paragraph results and a [raw_response] that
    carries [retrieval_results]. *)
Definition nested_results : value :=
  VDict [("paragraphs", VDict [("results", VList [hit "anidado" "r2" (Qmake 9 10)])]);
         ("resources", resources)].

Definition raw_response : value := VDict [("retrieval_results", nested_results)].

Definition payload_both : value :=
  VDict [("paragraphs", VDict [("results", VList [hit "superior" "r2" (Qmake 9 10)])]);
         ("resources", resources);
         ("raw_response", raw_response)].

(** A provider response of the combined ask endpoint. *)
Definition ask_items : list value :=
  [VDict [("rid", VStr "ra"); ("text", VStr "uno")];
   VDict [("text", VStr "sin rid")];
   VDict [("rid", VStr "rc"); ("text", VStr "tres")]].

Definition ask_results : value := VList ask_items.

Definition ask_retrieval : value := VDict [("results", ask_results)].

Definition ask_response : value :=
  VDict [("answer", VStr "respuesta"); ("retrieval", ask_retrieval)].

(** Request bodies that leave every optional field unset. *)
Definition ask_body : AskBody := mkAskBody "que es uvg" None None None None.

Definition nuclia_ask_body : NucliaAskBody :=
  mkNucliaAskBody "que es uvg" None None None None None None None None.


(** A payload whose hits are all dropped under a threshold of 0.5: a blank
    text and a score of 0.1. *)
Definition payload_dropped : value :=
  VDict [("paragraphs", VDict [("results", VList [blank_hit; other_hit])]);
         ("resources", resources)].

(** A link resource whose [origin.url] is empty. *)
Definition link_info : list (string * value) :=
  [("title", VStr "Portal");
   ("icon", VStr "application/stf-link");
   ("origin", VDict [("url", VStr ""); ("path", VStr "/docs/portal")]);
   ("metadata", VDict [("uri", VStr "https://uvg.edu.gt/portal")])].

(** A file listing whose first field has no content type. *)
Definition file_listing : list (string * value) :=
  [("f0", VDict [("value", VDict [("file", VDict [("size", VInt 0)])])]);
   ("f1", VDict [("value", VDict [("file",
      VDict [("content_type", VStr "application/vnd.ms-excel");
             ("size", VInt 2048)])])])].

Definition sdk_download_down (h : list call) (rid file_id : string)
  : result (list Byte.byte) :=
  Raise ExternalError.

(** Upstream answers with status 200. *)
Definition search_ok : response := mkResponse 200 "{...}" (Some payload).
Definition http_get_200 (h : list call) (url : string) (params : value)
  : result response :=
  Ok search_ok.
Definition stream_ok : response :=
  mkResponse 200 ("data: uno" ++ nl ++ "data: dos") None.
Definition http_post_200 (h : list call) (url : string)
    (headers : list (string * value)) (body : value) : result response :=
  Ok stream_ok.

Definition streaming_body : NucliaAskBody :=
  mkNucliaAskBody "que es uvg" None None None None None (Some false) None None.

(** A stand-in for the line iterator of a response. *)
Definition line_iterator (r : response) : value :=
  VStr "<generator object iter_lines>".

(** U+00A0, the no-break space. *)
Definition nbsp : string := utf8 [194; 160]%nat.

(** A payload whose first hit is a no-break space alone and whose second is
    padded with it. *)
Definition payload_nbsp : value :=
  VDict [("paragraphs",
          VDict [("results", VList [hit nbsp "r2" (Qmake 9 10);
                                    hit (nbsp ++ "dos" ++ nbsp ++ " ") "r2"
                                      (Qmake 8 10)])]);
         ("resources", resources)].

End Scenario.

(* ------------------------------------------------------------------ *)
(** ** Configuration ([app/config.py]) and formatting *)

Section Program.

(** The module [app/config.py] is read-only process configuration. *)
Variable NUCLIA_API_BASE : string.
Variable KB : string.
Variable HEADERS : list (string * value).
Variable CLAUDE_MODEL : string.
Variable INSTRUCTIONS : string.

(** [repr_value v] is Python's rendering of a float, list, dict or bytes
    inside an f-string. *)
Variable repr_value : value -> string.

(** [str(e)] for an exception. *)
Variable str_exn : exn -> string.

(** The outside world.  Each oracle gives the outcome of one kind of call as
    a function of the calls made before it:
    - [sdk_resource_get]: [sdk.NucliaResource().get(rid=..., show=[...])];
    - [sdk_temporal_download_url]:
      [sdk.NucliaResource().temporal_download_url(rid, file_id, ttl)];
    - [sdk_download_file]: the bytes [sdk.NucliaResource().download_file]
      leaves in the temporary file, as read back;
    - [requests_get], [requests_post]: the HTTP client ([Raise] is a network
      failure, an [Ok] response may carry any status);
    - [messages_create]: the [content] attribute of the LLM client's
      response;
    - [iter_lines]: the iterator [response.iter_lines()] of the HTTP client,
      an object the program hands on without reading it. *)
Variable sdk_resource_get : list call -> value -> result value.
Variable sdk_temporal_download_url : list call -> value -> string -> Z -> result value.
Variable sdk_download_file : list call -> string -> string -> result (list Byte.byte).
Variable requests_get : list call -> string -> value -> result response.
Variable requests_post : list call -> string -> list (string * value) -> value -> result response.
Variable messages_create : list call -> string -> result value.
Variable iter_lines : response -> value.

(** [f"{v}"] *)
Definition py_str (v : value) : string :=
  match v with
  | VStr s => s
  | VNone => "None"
  | VBool true => "True"
  | VBool false => "False"
  | VInt z => str_int z
  | _ => repr_value v
  end.

(* ------------------------------------------------------------------ *)
(** ** Context Builder: [build_context] in [app/nuclia.py] *)

(** The metadata header and block of one surviving hit (the [include_metadata]
    branch of the loop body). *)
Definition context_block_with_metadata (resources hit : value) (text : string)
  : result string :=
  resource_id <~ get hit "rid" (VStr "") ;;
  field <~ get hit "field" (VStr "") ;;
  resource_info <~ get_key resources resource_id (VDict []) ;;
  title <~ get resource_info "title" (VStr "") ;;
  position <~ get hit "position" (VDict []) ;;
  page_num <~ get position "page_number" VNone ;;
  let metadata_parts :=
    List.app
      (if truthy title then ["📄 " ++ py_str title]
       else if truthy field then ["Fuente: " ++ py_str field]
       else [])
      (if truthy page_num then ["(página " ++ py_str page_num ++ ")"] else []) in
  match metadata_parts with
  | [] => Ok text
  | _ => Ok ("[" ++ join " " metadata_parts ++ "]" ++ nl ++ text)
  end.

(** One iteration of the loop of [build_context]: [None] is [continue],
    [Some b] appends the block [b]. *)
Definition context_block (resources : value) (include_metadata : bool)
    (score_threshold : Q) (hit : value) : result (option string) :=
  score <~ get hit "score" (VFloat 1) ;;
  below <~ lt_float score score_threshold ;;
  if below then Ok None else
  raw <~ get hit "text" VNone ;;
  text <~ py_strip (py_or raw (VStr "")) ;;
  if text =? "" then Ok None else
  if include_metadata then
    block <~ context_block_with_metadata resources hit text ;;
    Ok (Some block)
  else Ok (Some text).

(** The [for] loop over the window, accumulating [blocks]. *)
Fixpoint context_loop (resources : value) (include_metadata : bool)
    (score_threshold : Q) (hits : list value) (blocks : list string)
  : result (list string) :=
  match hits with
  | [] => Ok blocks
  | hit :: rest =>
      r <~ context_block resources include_metadata score_threshold hit ;;
      context_loop resources include_metadata score_threshold rest
        (match r with Some b => (blocks ++ [b])%list | None => blocks end)
  end.

(** [(payload.get("paragraphs") or {}).get("results", [])], the expression
    both [build_context] and [extract_sources_info] read the hits with. *)
Definition paragraph_results (payload : value) : result value :=
  paragraphs <~ get payload "paragraphs" VNone ;;
  get (py_or paragraphs (VDict [])) "results" (VList []).

(** The value of [blocks] when the loop of [build_context] ends. *)
Definition build_context_blocks (search_json : value) (max_chunks : Z)
    (include_metadata : bool) (score_threshold : Q) : result (list string) :=
  para <~ paragraph_results search_json ;;
  res <~ get search_json "resources" VNone ;;
  let resources := py_or res (VDict []) in
  hits <~ slice_iter para max_chunks ;;
  context_loop resources include_metadata score_threshold hits [].

Definition build_context (search_json : value) (max_chunks : Z)
    (include_metadata : bool) (score_threshold : Q) : result string :=
  blocks <~ build_context_blocks search_json max_chunks include_metadata
              score_threshold ;;
  Ok (join (nl ++ nl ++ "---" ++ nl ++ nl) blocks).

(* ------------------------------------------------------------------ *)
(** ** Nuclia SDK wrappers ([app/nuclia.py]) *)

(** [get_nuclia_resource]: the SDK first, a plain HTTP GET when it fails. *)
Definition get_nuclia_resource (resource_id : value) : M value :=
  try_except
    (external (SdkResourceGet resource_id)
       (fun h => sdk_resource_get h resource_id))
    (fun _ =>
       let url := NUCLIA_API_BASE ++ "/kb/" ++ KB ++ "/resource/" ++ py_str resource_id in
       r <- external (RequestsGet url HEADERS VNone)
              (fun h => requests_get h url VNone) ;;
       _ <- lift (raise_for_status r) ;;
       lift (response_json r)).

(** [get_temporal_download_url]: the SDK's time-limited URL, or the standard
    (authenticated) download URL when the SDK call fails. *)
Definition get_temporal_download_url (resource_id : value) (file_id : string)
    (ttl : Z) : M value :=
  try_except
    (external (SdkTemporalDownloadUrl resource_id file_id ttl)
       (fun h => sdk_temporal_download_url h resource_id file_id ttl))
    (fun _ =>
       ret (VStr (NUCLIA_API_BASE ++ "/kb/" ++ KB ++ "/resource/"
                  ++ py_str resource_id ++ "/file/" ++ file_id ++ "/download"))).

(** [download_resource_file]: a failure is printed and re-raised. *)
Definition download_resource_file (resource_id file_id : string) : M value :=
  try_except
    (content <- external (SdkDownloadFile resource_id file_id)
                  (fun h => sdk_download_file h resource_id file_id) ;;
     ret (VDict [("content", VBytes content);
                 ("content_type", VStr "application/octet-stream");
                 ("size", VInt (Z.of_nat (List.length content)))]))
    (fun e => raise e).

(** [if xs:] for an optional list / optional string argument. *)
Definition nonempty_list {A} (o : option (list A)) : option (list A) :=
  match o with
  | Some (x :: l) => Some (x :: l)
  | _ => None
  end.

Definition nonempty_str (o : option string) : option string :=
  match o with
  | Some s => if s =? "" then None else Some s
  | None => None
  end.

Definition str_list (l : list string) : value := VList (map VStr l).

(** [nuclia_search]: one GET on the search endpoint. *)
Definition nuclia_search (query : string) (size : Z)
    (features filters faceted : option (list string)) (sort : option string)
    (min_score : option Q) (vectorset : string) : M value :=
  let url := NUCLIA_API_BASE ++ "/kb/" ++ KB ++ "/search" in
  let features := match features with
                  | None => ["keyword"; "semantic"]
                  | Some f => f
                  end in
  let params :=
    List.app [("query", VStr query); ("size", VInt size);
              ("features", str_list features)]
   (List.app (if existsb (String.eqb "semantic") features
              then [("vectorset", VStr vectorset)] else [])
   (List.app (match nonempty_list filters with
              | Some f => [("filters", str_list f)] | None => [] end)
   (List.app (match nonempty_list faceted with
              | Some f => [("faceted", str_list f)] | None => [] end)
   (List.app (match nonempty_str sort with
              | Some o => [("sort", VStr o)] | None => [] end)
             (match min_score with
              | Some m => [("min_score", VFloat m)] | None => [] end))))) in
  r <- external (RequestsGet url HEADERS (VDict params))
         (fun h => requests_get h url (VDict params)) ;;
  _ <- lift (raise_for_status r) ;;
  lift (response_json r).

(** [nuclia_ask]: one POST on the provider's combined ask endpoint. *)
Definition nuclia_ask (query : string) (context : option (list value))
    (rephrase : bool) (citations : option string)
    (filters : option (list string)) (prompt : option (list (string * value)))
    (features : option (list string)) (max_tokens : option Z)
    (synchronous : bool) : M value :=
  let ask_request :=
    List.app [("query", VStr query)]
   (List.app (match nonempty_list context with
              | Some c => [("context", VList c)] | None => [] end)
   (List.app (if rephrase then [("rephrase", VBool rephrase)] else [])
   (List.app (match nonempty_str citations with
              | Some c => [("citations", VStr c)] | None => [] end)
   (List.app (match nonempty_list filters with
              | Some f => [("filters", str_list f)] | None => [] end)
   (List.app (match nonempty_list prompt with
              | Some p => [("prompt", VDict p)] | None => [] end)
   (List.app (match nonempty_list features with
              | Some f => [("features", str_list f)] | None => [] end)
             (match max_tokens with
              | Some m => if (m =? 0)%Z then [] else [("max_tokens", VInt m)]
              | None => [] end))))))) in
  let headers := if synchronous
                 then dict_set "x-synchronous" (VStr "true") HEADERS
                 else HEADERS in
  let url := NUCLIA_API_BASE ++ "/kb/" ++ KB ++ "/ask" in
  response <- external (RequestsPost url headers (VDict ask_request))
                (fun h => requests_post h url headers (VDict ask_request)) ;;
  _ <- lift (raise_for_status response) ;;
  if synchronous then lift (response_json response)
  else ret (VDict [("stream", iter_lines response)]).

(** The [source] dict that [parse_nuclia_ask_response] builds for the
    retrieval result at position [idx]. *)
Definition ask_source (idx : nat) (item : value) : result value :=
  text <~ get item "text" (VStr "") ;;
  score <~ get item "score" VNone ;;
  rid <~ get item "rid" VNone ;;
  field <~ get item "field" VNone ;;
  title <~ get item "title" (VStr "Documento sin título") ;;
  Ok (VDict [("id", VInt (Z.of_nat idx + 1)); ("text", text); ("score", score);
             ("resource_id", rid); ("field", field); ("title", title)]).

Fixpoint ask_sources_loop (items : list (nat * value)) (sources : list value)
  : result (list value) :=
  match items with
  | [] => Ok sources
  | (idx, item) :: rest =>
      source <~ ask_source idx item ;;
      ask_sources_loop rest (sources ++ [source])%list
  end.

(** [if k in response: result[k] = response[k]] *)
Definition copy_key (k : string) (response : value) (res : list (string * value))
  : result (list (string * value)) :=
  present <~ str_in k response ;;
  if present then v <~ subscript response k ;; Ok (dict_set k v res)
  else Ok res.

(** [parse_nuclia_ask_response] *)
Definition parse_nuclia_ask_response (response : value) : result value :=
  let res := [("answer", VStr ""); ("sources", VList []); ("metadata", VDict []);
              ("citations", VDict []); ("relations", VList [])] in
  res <~ copy_key "answer" response res ;;
  has_retrieval <~ str_in "retrieval" response ;;
  res <~ (if has_retrieval then
            retrieval <~ subscript response "retrieval" ;;
            has_results <~ str_in "results" retrieval ;;
            if has_results then
              results <~ subscript retrieval "results" ;;
              items <~ iter results ;;
              sources <~ ask_sources_loop (enumerate items) [] ;;
              Ok (dict_set "sources" (VList sources) res)
            else Ok res
          else Ok res) ;;
  res <~ copy_key "metadata" response res ;;
  res <~ copy_key "citations" response res ;;
  res <~ copy_key "relations" response res ;;
  Ok (VDict res).

(* ------------------------------------------------------------------ *)
(** ** Source Extractor: [extract_sources_info] in [app/agent.py] *)

(** Which of the three payload shapes is read (lines 85-99):
    [raw_response.retrieval_results], then [raw_response.retrieval.results],
    then the payload itself. *)
Definition select_retrieval_results (search_json : value) : result value :=
  raw_response <~ get search_json "raw_response" (VDict []) ;;
  retrieval_results <~
    (if truthy raw_response
     then get raw_response "retrieval_results" (VDict [])
     else Ok VNone) ;;
  retrieval_results <~
    (if negb (truthy retrieval_results) && truthy raw_response then
       retrieval <~ get raw_response "retrieval" (VDict []) ;;
       match retrieval with
       | VDict _ => get retrieval "results" (VDict [])
       | _ => Ok (VDict [])
       end
     else Ok retrieval_results) ;;
  Ok (if negb (truthy retrieval_results) then search_json else retrieval_results).

(** [is_file = icon and "application/" in icon and icon != "application/stf-link"],
    as the truth value the [if] tests. *)
Definition is_file (icon : value) : result bool :=
  if truthy icon then
    app_in <~ str_in "application/" icon ;;
    Ok (app_in && negb (eq_str "application/stf-link" icon))
  else Ok false.

(** [is_link = icon == "application/stf-link"] *)
Definition is_link (icon : value) : bool := eq_str "application/stf-link" icon.

Fixpoint cache_lookup (key : value) (cache : list (value * value)) : option value :=
  match cache with
  | [] => None
  | (k, v) :: cache' => if key_eqb k key then Some v else cache_lookup key cache'
  end.

(** [resources_cache = {}], reading the memo, and
    [resources_cache[resource_id] = resource_details]. *)
Definition cache_reset : M unit :=
  fun st => (Ok tt, mkStore (calls st) []).

Definition cache_read : M (list (value * value)) :=
  fun st => (Ok (resources_cache st), st).

Definition cache_store (resource_id resource_details : value) : M unit :=
  fun st =>
    (Ok tt,
     mkStore (calls st) ((resource_id, resource_details) :: resources_cache st)).

(** The memoised authoritative lookup (lines 140-145). *)
Definition cached_resource (resource_id : value) : M value :=
  cache <- cache_read ;;
  match cache_lookup resource_id cache with
  | None =>
      resource_details <- get_nuclia_resource resource_id ;;
      _ <- cache_store resource_id resource_details ;;
      ret resource_details
  | Some resource_details => ret resource_details
  end.

(** The descriptor built for one file field (lines 165-174). *)
Definition file_descriptor (temporal_url content_type file_size filename : value)
    (file_id : string) : result value :=
  lowered <~ py_lower content_type ;;
  Ok (VDict [("download_url", temporal_url);
             ("content_type", content_type);
             ("size", file_size);
             ("filename", filename);
             ("file_id", VStr file_id);
             ("is_pdf", VBool (contains "pdf" lowered));
             ("is_excel", VBool (contains "sheet" lowered || contains "excel" lowered));
             ("ttl", VInt 3600)]).

(** The loop over [files.items()] (lines 152-177): the first file field with
    a content type wins.  The result is the pair [(url, file_download_info)],
    still [("", None)] when no field qualifies. *)
Fixpoint scan_files (resource_id title : value) (files : list (string * value))
  : M (value * value) :=
  match files with
  | [] => ret (VStr "", VNone)
  | (file_id, file_info) :: rest =>
      file_value <- lift (get file_info "value" (VDict [])) ;;
      file_data <- lift (get file_value "file" (VDict [])) ;;
      content_type <- lift (get file_data "content_type" (VStr "")) ;;
      file_size <- lift (get file_data "size" (VInt 0)) ;;
      filename <- lift (get file_data "filename" title) ;;
      if truthy content_type then
        temporal_url <- get_temporal_download_url resource_id file_id 3600 ;;
        file_download_info <- lift (file_descriptor temporal_url content_type
                                      file_size filename file_id) ;;
        ret (temporal_url, file_download_info)
      else scan_files resource_id title rest
  end.

(** [files.items()]: only a dict has [.items]. *)
Definition items (v : value) : result (list (string * value)) :=
  match v with
  | VDict kv => Ok kv
  | _ => Raise AttributeError
  end.

(** The [try] block of the file branch (lines 138-182): any exception leaves
    [url] and [file_download_info] at their initial values. *)
Definition file_branch (resource_id title : value) : M (value * value) :=
  try_except
    (resource_details <- cached_resource resource_id ;;
     data <- lift (get resource_details "data" (VDict [])) ;;
     files <- lift (get data "files" (VDict [])) ;;
     kv <- lift (items files) ;;
     scan_files resource_id title kv)
    (fun _ => ret (VStr "", VNone)).

(** The link branch (lines 187-195): the display URL of a link resource. *)
Definition link_branch (resource_info : value) : result value :=
  origin <~ get resource_info "origin" (VDict []) ;;
  url <~ match origin with
         | VDict _ =>
             u <~ get origin "url" (VStr "") ;;
             p <~ get origin "path" (VStr "") ;;
             Ok (py_or u p)
         | _ => Ok (VStr "")
         end ;;
  if negb (truthy url) then
    metadata <~ get resource_info "metadata" (VDict []) ;;
    match metadata with
    | VDict _ =>
        u <~ get metadata "uri" (VStr "") ;;
        p <~ get metadata "url" (VStr "") ;;
        Ok (py_or u p)
    | _ => Ok url
    end
  else Ok url.

(** [a or b] on two lazily evaluated tests. *)
Definition or_else (a b : result bool) : result bool :=
  x <~ a ;; if x then Ok true else b.

(** The URL classification (lines 208-218). *)
Definition classify_url (url : value) : result string :=
  if truthy url then
    http <~ or_else (str_in "http://" url) (str_in "https://" url) ;;
    if http then
      internal <~ or_else (str_in "nuclia" url) (str_in "rag.progress.cloud" url) ;;
      Ok (if internal then "nuclia" else "external")
    else Ok "resource"
  else Ok "none".

(** The [source] dict (lines 221-240). *)
Definition make_source (idx : nat) (title : value) (text : string)
    (score page_num field resource_id url : value) (url_type : string)
    (resource_type file_download_info : value) : result value :=
  rounded <~ (if truthy score then round3 score else Ok VNone) ;;
  let source :=
    [("id", VInt (Z.of_nat idx + 1));
     ("title", title);
     ("text", VStr text);
     ("score", rounded);
     ("page", page_num);
     ("field", field);
     ("resource_id", resource_id);
     ("url", url);
     ("url_type", VStr url_type);
     ("resource_type", resource_type);
     ("has_url", VBool (truthy url))] in
  Ok (VDict (if truthy file_download_info
             then dict_set "is_downloadable" (VBool true)
                    (dict_set "file" file_download_info source)
             else dict_set "is_downloadable" (VBool false) source)).

(** One iteration of the loop (lines 112-243): [None] is [continue],
    [Some source] is [sources.append(source)]. *)
Definition source_of_hit (resources : value) (score_threshold : Q) (idx : nat)
    (hit : value) : M (option value) :=
  score <- lift (get hit "score" (VFloat 0)) ;;
  below <- lift (lt_float score score_threshold) ;;
  if below then ret None else
  raw <- lift (get hit "text" VNone) ;;
  text <- lift (py_strip (py_or raw (VStr ""))) ;;
  if text =? "" then ret None else
  resource_id <- lift (get hit "rid" (VStr "")) ;;
  field <- lift (get hit "field" (VStr "")) ;;
  resource_info <- lift (get_key resources resource_id (VDict [])) ;;
  title <- lift (get resource_info "title" (VStr "Documento sin título")) ;;
  icon <- lift (get resource_info "icon" (VStr "")) ;;
  file <- lift (is_file icon) ;;
  '(url, file_download_info) <-
    (if file && truthy resource_id then file_branch resource_id title
     else if is_link icon then
       url <- lift (link_branch resource_info) ;; ret (url, VNone)
     else ret (VStr "", VNone)) ;;
  let url :=
    if negb (truthy url) && truthy resource_id
    then VStr (NUCLIA_API_BASE ++ "/kb/" ++ KB ++ "/resource/" ++ py_str resource_id)
    else url in
  position <- lift (get hit "position" (VDict [])) ;;
  page_num <- lift (get position "page_number" VNone) ;;
  let resource_type := if truthy icon then icon else VStr "unknown" in
  url_type <- lift (classify_url url) ;;
  source <- lift (make_source idx title text score page_num field resource_id
                    url url_type resource_type file_download_info) ;;
  ret (Some source).

(** The [for idx, hit in enumerate(...)] loop, accumulating [sources]. *)
Fixpoint sources_loop (resources : value) (score_threshold : Q)
    (hits : list (nat * value)) (sources : list value) : M (list value) :=
  match hits with
  | [] => ret sources
  | (idx, hit) :: rest =>
      r <- source_of_hit resources score_threshold idx hit ;;
      sources_loop resources score_threshold rest
        (match r with Some s => (sources ++ [s])%list | None => sources end)
  end.

Definition extract_sources_info (search_json : value) (max_chunks : Z)
    (score_threshold : Q) : M (list value) :=
  retrieval_results <- lift (select_retrieval_results search_json) ;;
  resources <- lift (get retrieval_results "resources" (VDict [])) ;;
  para <- lift (paragraph_results retrieval_results) ;;
  _ <- cache_reset ;;
  hits <- lift (slice_iter para max_chunks) ;;
  sources_loop resources score_threshold (enumerate hits) [].

(* ------------------------------------------------------------------ *)
(** ** Orchestration: [ask_agent] in [app/agent.py] *)

(** [preprocess_query] of [app/llm.py]: a pure text transformation. *)
Variable preprocess_query : string -> string.

(** [getattr(p, "text", "")] on a response part (an object, modelled as the
    dict of its attributes). *)
Definition getattr_text (p : value) : value :=
  match p with
  | VDict kv => match assoc "text" kv with Some v => v | None => VStr "" end
  | _ => VStr ""
  end.

(** [the empty string .join(...)]: every item must be a string. *)
Fixpoint join_values (l : list value) : result string :=
  match l with
  | [] => Ok ""
  | VStr s :: rest => r <~ join_values rest ;; Ok (s ++ r)
  | _ :: _ => Raise TypeError
  end.

Definition ask_agent (question : string) (size max_chunks : Z)
    (use_semantic : bool) (min_score : Q) : M value :=
  let consulta := preprocess_query question in
  let features := if use_semantic then ["keyword"; "semantic"] else ["keyword"] in
  search <- nuclia_search consulta size (Some features) None None None
              (Some min_score) "multilingual-2024-05-06" ;;
  context <- lift (build_context search max_chunks true min_score) ;;
  let content := "Pregunta: " ++ question ++ nl ++ nl ++ "Contexto:" ++ nl ++ context in
  response_content <-
    external (MessagesCreate CLAUDE_MODEL INSTRUCTIONS content 800 (Qmake 2 10))
      (fun h => messages_create h content) ;;
  parts <- lift (iter (py_or response_content (VList []))) ;;
  answer <- lift (join_values (map getattr_text parts)) ;;
  sources_info <- extract_sources_info search max_chunks min_score ;;
  ret (VDict [("answer", VStr answer);
              ("sources", VList sources_info);
              ("search_results", search)]).

(* ------------------------------------------------------------------ *)
(** ** HTTP surface ([app/main.py]) *)

(** [x or default] on optional request fields. *)
Definition int_or (o : option Z) (default : Z) : Z :=
  match o with
  | Some z => if (z =? 0)%Z then default else z
  | None => default
  end.

Definition float_or (o : option Q) (default : Q) : Q :=
  match o with
  | Some q => if Qeq_bool q 0 then default else q
  | None => default
  end.

Definition bool_or (o : option bool) (default : bool) : bool :=
  match o with
  | Some true => true
  | _ => default
  end.

(** [x if x is not None else default] *)
Definition if_not_none (o : option bool) (default : bool) : bool :=
  match o with
  | Some b => b
  | None => default
  end.

Definition opt_str (o : option string) : value :=
  match o with Some s => VStr s | None => VNone end.

Definition opt_str_list (o : option (list string)) : value :=
  match o with Some l => str_list l | None => VNone end.

(** [e.response.status_code if e.response is not None else 502] and
    [e.response.text[:600] if e.response is not None else str(e)]. *)
Definition http_error_status (resp : option response) : Z :=
  match resp with
  | Some r => status_code r
  | None => 502
  end.

Definition http_error_detail (resp : option response) : string :=
  match resp with
  | Some r => substring 0 600 (text r)
  | None => str_exn (HTTPError resp)
  end.

(** [POST /ask] *)
Definition ask (body : AskBody) : M value :=
  let size := int_or (ask_size body) 30 in
  let max_chunks := int_or (ask_max_chunks body) 20 in
  let use_semantic := if_not_none (ask_use_semantic body) true in
  let min_score := float_or (ask_min_score body) 0 in
  try_except
    (result <- ask_agent (ask_query body) size max_chunks use_semantic min_score ;;
     answer <- lift (subscript result "answer") ;;
     sources <- lift (subscript result "sources") ;;
     ret (VDict [("answer", answer);
                 ("sources", sources);
                 ("model", VStr CLAUDE_MODEL);
                 ("nuclia_kb", VStr KB);
                 ("params", VDict [("size", VInt size);
                                   ("max_chunks", VInt max_chunks);
                                   ("use_semantic", VBool use_semantic);
                                   ("min_score", VFloat min_score)])]))
    (fun e =>
       match e with
       | HTTPError resp =>
           let status := http_error_status resp in
           let detail := http_error_detail resp in
           raise (HTTPException 502
                    ("Error consultando Nuclia (" ++ str_int status ++ "): " ++ detail))
       | _ => raise (HTTPException 502 ("Error llamando a Claude: " ++ str_exn e))
       end).

(** The [prompt] dict of [nuclia_ask_endpoint]: only the non-empty templates. *)
Definition prompt_dict (p : CustomPrompt) : list (string * value) :=
  List.app (match nonempty_str (prompt_system p) with
            | Some s => [("system", VStr s)] | None => [] end)
 (List.app (match nonempty_str (prompt_user p) with
            | Some s => [("user", VStr s)] | None => [] end)
           (match nonempty_str (prompt_rephrase p) with
            | Some s => [("rephrase", VStr s)] | None => [] end)).

(** [POST /nuclia-ask] *)
Definition nuclia_ask_endpoint (body : NucliaAskBody) : M value :=
  let rephrase := bool_or (nq_rephrase body) false in
  let synchronous := if_not_none (nq_synchronous body) true in
  try_except
    (let context :=
       match nonempty_list (nq_context body) with
       | Some l => Some (map (fun ctx => VDict [("author", VStr (author ctx));
                                               ("text", VStr (ctx_text ctx))]) l)
       | None => None
       end in
     let prompt := option_map prompt_dict (nq_prompt body) in
     raw_response <- nuclia_ask (nq_query body) context rephrase
                       (nq_citations body) (nq_filters body) prompt
                       (nq_features body) (nq_max_tokens body) synchronous ;;
     parsed <- lift (parse_nuclia_ask_response raw_response) ;;
     answer <- lift (subscript parsed "answer") ;;
     sources <- lift (subscript parsed "sources") ;;
     metadata <- lift (subscript parsed "metadata") ;;
     citations <- lift (subscript parsed "citations") ;;
     relations <- lift (subscript parsed "relations") ;;
     ret (VDict [("answer", answer);
                 ("sources", sources);
                 ("metadata", metadata);
                 ("citations", citations);
                 ("relations", relations);
                 ("nuclia_kb", VStr KB);
                 ("params", VDict [("rephrase", VBool rephrase);
                                   ("citations", opt_str (nq_citations body));
                                   ("synchronous", VBool synchronous);
                                   ("features", opt_str_list (nq_features body))]);
                 ("raw_response", raw_response)]))
    (fun e =>
       match e with
       | HTTPError resp =>
           let status := http_error_status resp in
           let detail := http_error_detail resp in
           raise (HTTPException status
                    ("Error en endpoint /ask de Nuclia (" ++ str_int status ++ "): "
                     ++ detail))
       | _ => raise (HTTPException 500 ("Error procesando solicitud: " ++ str_exn e))
       end).

(** [iter_bytes]: [content[i:i + 8192]] for [i] in [range(0, len(content), 8192)]. *)
Definition iter_bytes (content : list Byte.byte) : list (list Byte.byte) :=
  let chunk_size := 8192%nat in
  map (fun k => firstn chunk_size (skipn (k * chunk_size) content))
      (seq 0 ((List.length content + chunk_size - 1) / chunk_size)).

(** [file_data['content']], read as bytes. *)
Definition content_bytes (file_data : value) : result (list Byte.byte) :=
  content <~ subscript file_data "content" ;;
  match content with
  | VBytes b => Ok b
  | _ => Raise TypeError
  end.

(** [GET /download/{resource_id}/{file_id}] *)
Definition download_file (resource_id file_id : string) : M StreamingResponse :=
  try_except
    (file_data <- download_resource_file resource_id file_id ;;
     content <- lift (content_bytes file_data) ;;
     content_type <- lift (get file_data "content_type"
                             (VStr "application/octet-stream")) ;;
     let content_disposition :=
       "attachment; filename=" ++ dquote ++ resource_id ++ "_" ++ file_id
         ++ ".pdf" ++ dquote in
     ret (mkStreamingResponse content_type
            [("Content-Disposition", content_disposition);
             ("Content-Length", str_int (Z.of_nat (List.length content)));
             ("Cache-Control", "private, max-age=3600")]
            (iter_bytes content)))
    (fun e => raise (HTTPException 500 ("Error descargando archivo: " ++ str_exn e))).

(* ------------------------------------------------------------------ *)
(** ** Observations on the outputs *)

(** [e.get(k)] on an output record, [None] when the key is absent. *)
Definition entry_field (k : string) (e : value) : option value :=
  match e with
  | VDict kv => assoc k kv
  | _ => None
  end.

(** The entry has the key ["file"] and its value is not [None]. *)
Definition has_file_descriptor (e : value) : bool :=
  match entry_field "file" e with
  | Some VNone => false
  | Some _ => true
  | None => false
  end.

(** The items a loop appended, given what each iteration produced. *)
Fixpoint keep {A} (rs : list (option A)) : list A :=
  match rs with
  | [] => []
  | Some a :: rs' => a :: keep rs'
  | None :: rs' => keep rs'
  end.

(** The positions (counted from [start]) of the iterations that appended. *)
Fixpoint kept_positions {A} (start : nat) (rs : list (option A)) : list nat :=
  match rs with
  | [] => []
  | Some _ :: rs' => start :: kept_positions (S start) rs'
  | None :: rs' => kept_positions (S start) rs'
  end.

(** The ["id"] of an entry, as an integer. *)
Definition entry_id (e : value) : Z :=
  match entry_field "id" e with
  | Some (VInt z) => z
  | _ => 0%Z
  end.

(** A file descriptor is [None] or was built by [file_descriptor] for a file
    field with a content type. *)
Definition descriptor_ok (url file_download_info : value) : Prop :=
  file_download_info = VNone \/
  exists content_type file_size filename file_id,
    truthy content_type = true /\
    file_descriptor url content_type file_size filename file_id
      = Ok file_download_info.

(** The standard (authenticated) download URL of a file field. *)
Definition standard_download_url (resource_id : value) (file_id : string) : string :=
  NUCLIA_API_BASE ++ "/kb/" ++ KB ++ "/resource/" ++ py_str resource_id
    ++ "/file/" ++ file_id ++ "/download".


(** [response.headers[name]] *)
Fixpoint header (name : string) (hs : list (string * string)) : option string :=
  match hs with
  | [] => None
  | (k, v) :: hs' => if k =? name then Some v else header name hs'
  end.

(** [d.get(k, "")] on the items of a dict. *)
Definition field_or_empty (k : string) (d : list (string * value)) : value :=
  match assoc k d with
  | Some v => v
  | None => VStr ""
  end.

(** The four tags of [url_type]. *)
Definition url_types : list string := ["none"; "nuclia"; "external"; "resource"].

(** [if k in response: res[k] = response[k]] once the response is known to
    be a dict with items [d]. *)
Definition copied (k : string) (d res : list (string * value))
  : list (string * value) :=
  match assoc k d with
  | Some v => dict_set k v res
  | None => res
  end.

(** The keys of the normalizer's result, in order. *)
Definition result_keys : list string :=
  ["answer"; "sources"; "metadata"; "citations"; "relations"].

(** The value a key of the normalizer's result starts with. *)
Definition result_default (k : string) : value :=
  if (k =? "answer") then VStr ""
  else if (k =? "metadata") || (k =? "citations") then VDict []
  else VList [].

(** [text] starts, respectively ends, with no white-space character. *)
Definition no_leading_space (text : string) : Prop :=
  leading white_space text = None.

Definition no_trailing_space (text : string) : Prop :=
  leading (map reverse white_space) (reverse text) = None.




(** The classification of C6 as the specification words it: the icon is a
    MIME type ([type/subtype], both parts non-empty) other than the link
    marker. *)
Fixpoint mime_type_from (seen : bool) (s : string) : bool :=
  match s with
  | EmptyString => false
  | String c s' =>
      if Ascii.eqb c "/"%char then seen && negb (s' =? "")
      else mime_type_from true s'
  end.

Definition mime_type (s : string) : bool := mime_type_from false s.

Definition spec_is_file (icon : string) : bool :=
  mime_type icon && negb (icon =? "application/stf-link").

(* ------------------------------------------------------------------ *)
(** ** Reasoning about the monads *)

Lemma rbind_ok {A B} (r : result A) (k : A -> result B) (b : B) :
  rbind r k = Ok b -> exists a, r = Ok a /\ k a = Ok b.
Proof.
  destruct r as [a | e]; simpl; intros H; [eauto | discriminate].
Qed.

Lemma bind_ok {A B} (m : M A) (k : A -> M B) st b st' :
  bind m k st = (Ok b, st') ->
  exists a st1, m st = (Ok a, st1) /\ k a st1 = (Ok b, st').
Proof.
  unfold bind. destruct (m st) as [[a | e] st1]; intros H.
  - eauto.
  - inversion H.
Qed.

Lemma lift_ok {A} (r : result A) st a st' :
  lift r st = (Ok a, st') -> r = Ok a /\ st' = st.
Proof. unfold lift. intros H. inversion H. auto. Qed.

Lemma ret_ok {A} (x : A) st a st' :
  ret x st = (Ok a, st') -> a = x /\ st' = st.
Proof. unfold ret. intros H. inversion H. auto. Qed.

(** Peels the successful run of a monadic program into its steps. *)
Ltac step_ok H :=
  match type of H with
  | bind _ _ _ = (Ok _, _) =>
      let a := fresh "a" in
      let st := fresh "st" in
      let H1 := fresh "Hstep" in
      apply bind_ok in H; destruct H as (a & st & H1 & H);
      try (apply lift_ok in H1; destruct H1 as [H1 ?]; subst st)
  | rbind _ _ = Ok _ =>
      let a := fresh "a" in
      let H1 := fresh "Hstep" in
      apply rbind_ok in H; destruct H as (a & H1 & H)
  end.

(* ------------------------------------------------------------------ *)
(** ** The downloadable flag *)

(** [make_source] sets ["is_downloadable"] to whether it stored a ["file"]. *)
Lemma make_source_downloadable idx title text score page_num field resource_id
    url url_type resource_type file_download_info e :
  make_source idx title text score page_num field resource_id url url_type
    resource_type file_download_info = Ok e ->
  entry_field "is_downloadable" e = Some (VBool (has_file_descriptor e)) /\
  entry_field "file" e
    = (if truthy file_download_info then Some file_download_info else None) /\
  entry_field "id" e = Some (VInt (Z.of_nat idx + 1)).
Proof.
  unfold make_source. intros H. step_ok H. inversion H; subst e; clear H.
  destruct (truthy file_download_info) eqn:T.
  - unfold has_file_descriptor. simpl.
    destruct file_download_info; try discriminate T; auto.
  - unfold has_file_descriptor. simpl. auto.
Qed.

(** A hit that is appended went through [make_source]. *)
Lemma source_of_hit_made resources score_threshold idx hit st e st' :
  source_of_hit resources score_threshold idx hit st = (Ok (Some e), st') ->
  exists title text score page_num field resource_id url url_type resource_type
         file_download_info,
    make_source idx title text score page_num field resource_id url url_type
      resource_type file_download_info = Ok e.
Proof.
  unfold source_of_hit. intros H.
  do 2 step_ok H.
  match type of H with (if ?c then _ else _) _ = _ => destruct c end;
    [apply ret_ok in H; destruct H; discriminate |].
  do 2 step_ok H.
  match type of H with (if ?c then _ else _) _ = _ => destruct c end;
    [apply ret_ok in H; destruct H; discriminate |].
  do 6 step_ok H.
  apply bind_ok in H. destruct H as ([url info] & st1 & _ & H).
  do 4 step_ok H.
  apply ret_ok in H. destruct H as [H _]. inversion H; subst.
  eauto 12.
Qed.

(** What the loop returns is what it started with plus what the iterations
    appended, in order. *)
Lemma sources_loop_ok resources score_threshold hits :
  forall sources st out st',
    sources_loop resources score_threshold hits sources st = (Ok out, st') ->
    exists rs,
      Forall2 (fun ih r => exists s1 s2,
                 source_of_hit resources score_threshold (fst ih) (snd ih) s1
                   = (Ok r, s2))
              hits rs /\
      out = (sources ++ keep rs)%list.
Proof.
  induction hits as [| [idx hit] rest IH]; simpl; intros sources st out st' H.
  - apply ret_ok in H. destruct H as [-> _].
    exists []. split; [constructor | now rewrite app_nil_r].
  - step_ok H. apply IH in H. destruct H as (rs & HF & ->).
    exists (a :: rs). split.
    + constructor; [simpl; eauto | exact HF].
    + destruct a; simpl; [now rewrite <- app_assoc | reflexivity].
Qed.

(** The extractor's result, unfolded: the selected shape, its window of
    hits, and what each hit of the window produced. *)
Lemma extract_sources_info_ok search_json max_chunks score_threshold st sources st' :
  extract_sources_info search_json max_chunks score_threshold st
    = (Ok sources, st') ->
  exists retrieval_results resources para hits rs,
    select_retrieval_results search_json = Ok retrieval_results /\
    get retrieval_results "resources" (VDict []) = Ok resources /\
    paragraph_results retrieval_results = Ok para /\
    slice_iter para max_chunks = Ok hits /\
    Forall2 (fun ih r => exists s1 s2,
               source_of_hit resources score_threshold (fst ih) (snd ih) s1
                 = (Ok r, s2))
            (enumerate hits) rs /\
    sources = keep rs.
Proof.
  unfold extract_sources_info. intros H.
  do 3 step_ok H. step_ok H. step_ok H.
  apply sources_loop_ok in H. destruct H as (rs & HF & ->).
  exists a, a0, a1, a3, rs. simpl. auto 10.
Qed.

Lemma Forall2_keep {A B} (P : A -> option B -> Prop) (Q : B -> Prop) l rs :
  Forall2 P l rs ->
  (forall a b, P a (Some b) -> Q b) ->
  Forall Q (keep rs).
Proof.
  intros HF HQ. induction HF as [| a r l rs Hr _ IH]; simpl.
  - constructor.
  - destruct r; [constructor; eauto | exact IH].
Qed.

(** C1.  For every search payload, max-chunk count and score threshold,
    every entry the Source Extractor returns carries ["is_downloadable"], and
    that flag is true if and only if the entry has the key ["file"] with a
    non-null descriptor. *)
Theorem downloadable_iff_file search_json max_chunks score_threshold st sources st' :
  extract_sources_info search_json max_chunks score_threshold st
    = (Ok sources, st') ->
  Forall (fun e =>
            (exists b, entry_field "is_downloadable" e = Some (VBool b)) /\
            (has_file_descriptor e = true <->
             entry_field "is_downloadable" e = Some (VBool true)))
         sources.
Proof.
  intros H. apply extract_sources_info_ok in H.
  destruct H as (rr & resources & para & hits & rs & _ & _ & _ & _ & HF & ->).
  eapply Forall2_keep; [exact HF |].
  intros [idx hit] e (s1 & s2 & He). simpl in He.
  apply source_of_hit_made in He.
  destruct He as (t & x & sc & pg & f & rid & u & ut & rt & info & He).
  apply make_source_downloadable in He. destruct He as (Hd & _ & _).
  split; [eauto |]. rewrite Hd. split.
  - intros ->. reflexivity.
  - intros E. inversion E. reflexivity.
Qed.

(* ------------------------------------------------------------------ *)
(** ** The max-chunk window *)

Lemma keep_length {A} (rs : list (option A)) :
  (List.length (keep rs) <= List.length rs)%nat.
Proof.
  induction rs as [| [a |] rs IH]; simpl; lia.
Qed.

Lemma enumerate_length {A} (l : list A) :
  List.length (enumerate l) = List.length l.
Proof.
  unfold enumerate. rewrite length_combine, length_seq. lia.
Qed.

(** With a non-negative bound, [v[:n]] is the first [n] items of [v]. *)
Lemma slice_iter_firstn para n hits :
  (0 <= n)%Z ->
  slice_iter para n = Ok hits ->
  exists all, iter para = Ok all /\ hits = firstn (Z.to_nat n) all.
Proof.
  intros Hn H. unfold slice_iter, list_slice_to in H.
  destruct (Z.leb_spec 0 n) as [_ | Hneg]; [| lia].
  destruct para; try discriminate H; inversion H; subst hits; simpl.
  - eexists. split; [reflexivity |]. now rewrite firstn_map.
  - eexists. split; reflexivity.
Qed.

Lemma context_loop_ok resources include_metadata score_threshold hits :
  forall blocks out,
    context_loop resources include_metadata score_threshold hits blocks = Ok out ->
    exists rs,
      Forall2 (fun hit r =>
                 context_block resources include_metadata score_threshold hit = Ok r)
              hits rs /\
      out = (blocks ++ keep rs)%list.
Proof.
  induction hits as [| hit rest IH]; simpl; intros blocks out H.
  - inversion H; subst out. exists []. split; [constructor | now rewrite app_nil_r].
  - step_ok H. apply IH in H. destruct H as (rs & HF & ->).
    exists (a :: rs). split.
    + constructor; assumption.
    + destruct a; simpl; [now rewrite <- app_assoc | reflexivity].
Qed.

Lemma build_context_blocks_ok search_json max_chunks include_metadata
    score_threshold blocks :
  build_context_blocks search_json max_chunks include_metadata score_threshold
    = Ok blocks ->
  exists para resources hits rs,
    paragraph_results search_json = Ok para /\
    slice_iter para max_chunks = Ok hits /\
    Forall2 (fun hit r =>
               context_block resources include_metadata score_threshold hit = Ok r)
            hits rs /\
    blocks = keep rs.
Proof.
  unfold build_context_blocks. intros H. do 3 step_ok H.
  apply context_loop_ok in H. destruct H as (rs & HF & ->).
  eauto 10.
Qed.

(** C7.  For a max-chunk value [N >= 0], the Context Builder and the Source
    Extractor each run their loop body on exactly the first [N] hits of the
    paragraph list, in payload order, and emit the blocks / entries of the
    hits that pass the filter, in that order: at most [N] of them, none from
    beyond position [N]. *)
Theorem window_bounds_outputs search_json max_chunks include_metadata
    score_threshold :
  (0 <= max_chunks)%Z ->
  (forall blocks,
     build_context_blocks search_json max_chunks include_metadata score_threshold
       = Ok blocks ->
     exists para all resources rs,
       paragraph_results search_json = Ok para /\
       iter para = Ok all /\
       Forall2 (fun hit r =>
                  context_block resources include_metadata score_threshold hit
                    = Ok r)
               (firstn (Z.to_nat max_chunks) all) rs /\
       blocks = keep rs /\
       (List.length blocks <= Z.to_nat max_chunks)%nat) /\
  (forall st sources st',
     extract_sources_info search_json max_chunks score_threshold st
       = (Ok sources, st') ->
     exists retrieval_results para all resources rs,
       select_retrieval_results search_json = Ok retrieval_results /\
       paragraph_results retrieval_results = Ok para /\
       iter para = Ok all /\
       Forall2 (fun ih r => exists s1 s2,
                  source_of_hit resources score_threshold (fst ih) (snd ih) s1
                    = (Ok r, s2))
               (enumerate (firstn (Z.to_nat max_chunks) all)) rs /\
       sources = keep rs /\
       (List.length sources <= Z.to_nat max_chunks)%nat).
Proof.
  intros Hn. split.
  - intros blocks H. apply build_context_blocks_ok in H.
    destruct H as (para & resources & hits & rs & Hp & Hs & HF & ->).
    destruct (slice_iter_firstn _ _ _ Hn Hs) as (all & Hall & ->).
    exists para, all, resources, rs. repeat split; auto.
    pose proof (keep_length rs) as Hk.
    apply Forall2_length in HF. rewrite <- HF in Hk.
    pose proof (firstn_le_length (Z.to_nat max_chunks) all). lia.
  - intros st sources st' H. apply extract_sources_info_ok in H.
    destruct H as (rr & resources & para & hits & rs & Hsel & _ & Hp & Hs & HF & ->).
    destruct (slice_iter_firstn _ _ _ Hn Hs) as (all & Hall & ->).
    exists rr, para, all, resources, rs. repeat split; auto.
    pose proof (keep_length rs) as Hk.
    apply Forall2_length in HF. rewrite <- HF, enumerate_length in Hk.
    pose proof (firstn_le_length (Z.to_nat max_chunks) all). lia.
Qed.

(* ------------------------------------------------------------------ *)
(** ** Numbering of the entries *)

Lemma source_of_hit_id resources score_threshold idx hit st e st' :
  source_of_hit resources score_threshold idx hit st = (Ok (Some e), st') ->
  entry_id e = (Z.of_nat idx + 1)%Z.
Proof.
  intros H. apply source_of_hit_made in H.
  destruct H as (t & x & sc & pg & f & rid & u & ut & rt & info & H).
  apply make_source_downloadable in H. destruct H as (_ & _ & Hid).
  unfold entry_id. now rewrite Hid.
Qed.

(** Each appended entry comes from the hit at its kept position, and its id
    is that position plus one. *)
Lemma kept_trace resources score_threshold hits :
  forall start rs,
    Forall2 (fun ih r => exists s1 s2,
               source_of_hit resources score_threshold (fst ih) (snd ih) s1
                 = (Ok r, s2))
            (combine (seq start (List.length hits)) hits) rs ->
    Forall2 (fun k e =>
               (start <= k)%nat /\
               entry_id e = (Z.of_nat k + 1)%Z /\
               exists hit s1 s2,
                 nth_error hits (k - start) = Some hit /\
                 source_of_hit resources score_threshold k hit s1
                   = (Ok (Some e), s2))
            (kept_positions start rs) (keep rs).
Proof.
  induction hits as [| hit rest IH]; simpl; intros start rs HF.
  - inversion HF. constructor.
  - inversion HF as [| ih r l rs' Hr HF' ]; subst. simpl in Hr.
    destruct Hr as (s1 & s2 & Hr). apply IH in HF'.
    assert (Htail :
      Forall2 (fun k e =>
                 (start <= k)%nat /\
                 entry_id e = (Z.of_nat k + 1)%Z /\
                 exists h t1 t2,
                   nth_error (hit :: rest) (k - start) = Some h /\
                   source_of_hit resources score_threshold k h t1
                     = (Ok (Some e), t2))
              (kept_positions (S start) rs') (keep rs')).
    { eapply Forall2_impl; [| exact HF'].
      intros k e (Hk & Hid & h & t1 & t2 & Hn & Hrun).
      split; [lia |]. split; [exact Hid |].
      exists h, t1, t2. split; [| exact Hrun].
      replace (k - start)%nat with (S (k - S start)) by lia. exact Hn. }
    destruct r as [e |]; simpl; [| exact Htail].
    constructor; [| exact Htail].
    split; [lia |]. split; [eapply source_of_hit_id; exact Hr |].
    exists hit, s1, s2. rewrite Nat.sub_diag. auto.
Qed.

Lemma kept_positions_bounds {A} (rs : list (option A)) :
  forall start,
    Forall (fun k => (start <= k < start + List.length rs)%nat)
           (kept_positions start rs).
Proof.
  induction rs as [| [a |] rs IH]; simpl; intros start.
  - constructor.
  - constructor; [lia |].
    eapply Forall_impl; [| apply IH]. simpl. intros k Hk. lia.
  - eapply Forall_impl; [| apply IH]. simpl. intros k Hk. lia.
Qed.

Lemma kept_positions_increasing {A} (rs : list (option A)) :
  forall start, StronglySorted lt (kept_positions start rs).
Proof.
  induction rs as [| [a |] rs IH]; simpl; intros start.
  - constructor.
  - constructor; [apply IH |].
    eapply Forall_impl; [| apply (kept_positions_bounds rs (S start))].
    simpl. intros k Hk. lia.
  - apply IH.
Qed.

Lemma kept_positions_all {A} (rs : list (option A)) :
  forall start,
    List.length (keep rs) = List.length rs ->
    kept_positions start rs = seq start (List.length rs).
Proof.
  induction rs as [| [a |] rs IH]; simpl; intros start H.
  - reflexivity.
  - f_equal. apply IH. lia.
  - pose proof (keep_length rs). lia.
Qed.

(** C5, as the code has it.  The entry built from the hit at position [k]
    (0-based) of the max-chunk window has id [k + 1], the position being
    counted before filtering.  So the ids increase strictly along the output
    and stay within the window, and they are the consecutive numbers 1, 2, ...
    when no hit of the window is filtered out. *)
Theorem ids_are_window_positions search_json max_chunks score_threshold st
    sources st' :
  extract_sources_info search_json max_chunks score_threshold st
    = (Ok sources, st') ->
  exists retrieval_results resources para hits positions,
    select_retrieval_results search_json = Ok retrieval_results /\
    paragraph_results retrieval_results = Ok para /\
    slice_iter para max_chunks = Ok hits /\
    Forall2 (fun k e =>
               entry_id e = (Z.of_nat k + 1)%Z /\
               exists hit s1 s2,
                 nth_error hits k = Some hit /\
                 source_of_hit resources score_threshold k hit s1
                   = (Ok (Some e), s2))
            positions sources /\
    StronglySorted lt positions /\
    (List.length sources = List.length hits ->
     positions = seq 0 (List.length hits)).
Proof.
  intros H. apply extract_sources_info_ok in H.
  destruct H as (rr & resources & para & hits & rs & Hsel & _ & Hp & Hs & HF & ->).
  unfold enumerate in HF.
  pose proof (Forall2_length HF) as HL.
  rewrite length_combine, length_seq, Nat.min_id in HL.
  exists rr, resources, para, hits, (kept_positions 0 rs).
  repeat split; auto.
  - eapply Forall2_impl; [| eapply kept_trace; exact HF].
    intros k e (_ & Hid & h & s1 & s2 & Hn & Hrun).
    rewrite Nat.sub_0_r in Hn. eauto 8.
  - apply kept_positions_increasing.
  - intros Hall. rewrite HL. apply kept_positions_all. lia.
Qed.

(* ------------------------------------------------------------------ *)
(** ** Payload shapes *)

(** C4, as the code has it.  The extractor probes
    [raw_response.retrieval_results] first, then
    [raw_response.retrieval.results], and falls back to the top-level payload
    last; the first of the nested shapes that is non-empty is used, and the
    top level only when there is no [raw_response] or both nested shapes are
    empty. *)
Theorem shape_priority search_json raw :
  get search_json "raw_response" (VDict []) = Ok raw ->
  (forall r1,
     truthy raw = true ->
     get raw "retrieval_results" (VDict []) = Ok r1 ->
     truthy r1 = true ->
     select_retrieval_results search_json = Ok r1) /\
  (forall r1 rt r2,
     truthy raw = true ->
     get raw "retrieval_results" (VDict []) = Ok r1 ->
     truthy r1 = false ->
     get raw "retrieval" (VDict []) = Ok (VDict rt) ->
     get (VDict rt) "results" (VDict []) = Ok r2 ->
     truthy r2 = true ->
     select_retrieval_results search_json = Ok r2) /\
  (forall r1 retrieval,
     truthy raw = true ->
     get raw "retrieval_results" (VDict []) = Ok r1 ->
     truthy r1 = false ->
     get raw "retrieval" (VDict []) = Ok retrieval ->
     (forall rt r2, retrieval = VDict rt ->
                    get retrieval "results" (VDict []) = Ok r2 ->
                    truthy r2 = false) ->
     select_retrieval_results search_json = Ok search_json) /\
  (truthy raw = false ->
   select_retrieval_results search_json = Ok search_json).
Proof.
  intros Hraw. unfold select_retrieval_results. rewrite Hraw. simpl.
  repeat split.
  - intros r1 T H1 T1. rewrite T, H1. simpl. rewrite T1. simpl. now rewrite T1.
  - intros r1 rt r2 T H1 T1 H2 H3 T2.
    rewrite T, H1. simpl. rewrite T1. simpl. rewrite H2. simpl.
    simpl in H3. inversion H3 as [E]. rewrite E. now rewrite T2.
  - intros r1 retrieval T H1 T1 H2 Hempty.
    rewrite T, H1. simpl. rewrite T1. simpl. rewrite H2. simpl.
    destruct retrieval; simpl; try reflexivity.
    specialize (Hempty d _ eq_refl eq_refl). now rewrite Hempty.
  - intros T. rewrite T. reflexivity.
Qed.

(* ------------------------------------------------------------------ *)
(** ** Classification of a hit's resource *)

Lemma bind_lift {A B} (r : result A) (k : A -> M B) st :
  bind (lift r) k st
  = match r with Ok a => k a st | Raise e => (Raise e, st) end.
Proof. unfold bind, lift. destruct r; reflexivity. Qed.

Lemma scan_files_descriptor resource_id title files :
  forall st url info st',
    scan_files resource_id title files st = (Ok (url, info), st') ->
    descriptor_ok url info.
Proof.
  induction files as [| [file_id file_info] rest IH]; simpl;
    intros st url info st' H.
  - apply ret_ok in H. destruct H as [H _]. inversion H. now left.
  - do 5 step_ok H.
    match type of H with (if ?c then _ else _) _ = _ => destruct c eqn:T end.
    + do 2 step_ok H. apply ret_ok in H. destruct H as [H _].
      inversion H; subst. right. eauto 8.
    + eapply IH; eassumption.
Qed.

Lemma file_branch_descriptor resource_id title st url info st' :
  file_branch resource_id title st = (Ok (url, info), st') ->
  descriptor_ok url info.
Proof.
  unfold file_branch, try_except. intros H.
  match type of H with
  | match ?body with _ => _ end = _ => destruct body as [[[u i] | e] st1] eqn:B
  end.
  - inversion H; subst. clear H.
    do 4 step_ok B. eapply scan_files_descriptor; eassumption.
  - unfold ret in H. inversion H. now left.
Qed.

(** The [try] block of the file branch never lets an exception out. *)
Lemma file_branch_total resource_id title st :
  exists url info st', file_branch resource_id title st = (Ok (url, info), st').
Proof.
  unfold file_branch, try_except.
  match goal with
  | |- context [match ?body with _ => _ end] =>
      destruct body as [[[u i] | e] st1]
  end; unfold ret; eauto.
Qed.



(** One step of a run whose outcome is left open: either the pure step
    raises and the run stops there, or it continues. *)
Ltac exec_lift :=
  rewrite bind_lift;
  match goal with
  | |- snd (match ?r with Ok _ => _ | Raise _ => _ end) = _ =>
      let E := fresh "E" in
      destruct r eqn:E; [| reflexivity]
  end.




(* ------------------------------------------------------------------ *)
(** ** Degrading when the auxiliary lookups fail *)






Lemma temporal_url_total rid file_id ttl st :
  exists u,
    get_temporal_download_url rid file_id ttl st
    = (Ok u,
       mkStore (calls st ++ [SdkTemporalDownloadUrl rid file_id ttl])%list
               (resources_cache st)).
Proof.
  unfold get_temporal_download_url, try_except, external.
  destruct (sdk_temporal_download_url (calls st) rid file_id ttl);
    eexists; reflexivity.
Qed.





(* ------------------------------------------------------------------ *)
(** ** Upstream failures at the HTTP surface *)

Lemma raise_for_status_error resp :
  (400 <= status_code resp < 600)%Z ->
  raise_for_status resp = Raise (HTTPError (Some resp)).
Proof.
  intros [Hlo Hhi]. unfold raise_for_status.
  apply Z.leb_le in Hlo. apply Z.ltb_lt in Hhi. now rewrite Hlo, Hhi.
Qed.

Lemma nuclia_search_http_error query size features filters faceted sort
    min_score vectorset st resp :
  (forall url params, requests_get (calls st) url params = Ok resp) ->
  (400 <= status_code resp < 600)%Z ->
  exists url params,
    nuclia_search query size features filters faceted sort min_score vectorset st
    = (Raise (HTTPError (Some resp)),
       mkStore (calls st ++ [RequestsGet url HEADERS params])%list
               (resources_cache st)).
Proof.
  intros Hget Hstatus. unfold nuclia_search.
  do 2 eexists. unfold bind at 1. unfold external at 1. rewrite Hget.
  rewrite bind_lift, (raise_for_status_error _ Hstatus). reflexivity.
Qed.

Lemma nuclia_ask_http_error query context rephrase citations filters prompt
    features max_tokens synchronous st resp :
  (forall url hdrs payload, requests_post (calls st) url hdrs payload = Ok resp) ->
  (400 <= status_code resp < 600)%Z ->
  exists url hdrs payload,
    nuclia_ask query context rephrase citations filters prompt features
      max_tokens synchronous st
    = (Raise (HTTPError (Some resp)),
       mkStore (calls st ++ [RequestsPost url hdrs payload])%list
               (resources_cache st)).
Proof.
  intros Hpost Hstatus. unfold nuclia_ask.
  do 3 eexists. unfold bind at 1. unfold external at 1. rewrite Hpost.
  rewrite bind_lift, (raise_for_status_error _ Hstatus). reflexivity.
Qed.

Lemma substring_length_le n : forall s, (String.length (substring 0 n s) <= n)%nat.
Proof.
  induction n as [| n IH]; intros [| c s]; simpl; try lia.
  specialize (IH s). lia.
Qed.

(** C8, as the code has it.  When the upstream search (resp. combined ask)
    endpoint answers with an HTTP error status (400-599), the failure is
    surfaced after that single call, with the upstream body cut to its first
    600 characters inside the detail message.  [/nuclia-ask] responds with
    the upstream status code; [/ask] always responds with status 502 and
    only quotes the upstream status code in the detail message. *)
Theorem upstream_failure_surfaced :
  (forall body st resp,
     (forall url params, requests_get (calls st) url params = Ok resp) ->
     (400 <= status_code resp < 600)%Z ->
     exists url params,
       ask body st
       = (Raise (HTTPException 502
                   ("Error consultando Nuclia (" ++ str_int (status_code resp)
                    ++ "): " ++ substring 0 600 (text resp))),
          mkStore (calls st ++ [RequestsGet url HEADERS params])%list
                  (resources_cache st))) /\
  (forall body st resp,
     (forall url hdrs payload,
        requests_post (calls st) url hdrs payload = Ok resp) ->
     (400 <= status_code resp < 600)%Z ->
     exists url hdrs payload,
       nuclia_ask_endpoint body st
       = (Raise (HTTPException (status_code resp)
                   ("Error en endpoint /ask de Nuclia ("
                    ++ str_int (status_code resp) ++ "): "
                    ++ substring 0 600 (text resp))),
          mkStore (calls st ++ [RequestsPost url hdrs payload])%list
                  (resources_cache st))) /\
  (forall resp,
     (String.length (http_error_detail (Some resp)) <= 600)%nat).
Proof.
  split; [| split].
  - intros body st resp Hget Hstatus.
    unfold ask, try_except, ask_agent.
    unfold bind at 1. unfold bind at 1.
    destruct (nuclia_search_http_error (preprocess_query (ask_query body))
                (int_or (ask_size body) 30)
                (Some (if if_not_none (ask_use_semantic body) true
                       then ["keyword"; "semantic"] else ["keyword"]))
                None None None (Some (float_or (ask_min_score body) 0))
                "multilingual-2024-05-06" st resp Hget Hstatus)
      as (url & params & Hs).
    rewrite Hs. exists url, params. reflexivity.
  - intros body st resp Hpost Hstatus.
    unfold nuclia_ask_endpoint, try_except.
    unfold bind at 1.
    match goal with
    | |- context [nuclia_ask ?q ?c ?r ?ci ?f ?p ?fe ?m ?s st] =>
        destruct (nuclia_ask_http_error q c r ci f p fe m s st resp Hpost Hstatus)
          as (url & hdrs & payload & Hs)
    end.
    rewrite Hs. exists url, hdrs, payload. reflexivity.
  - intros resp. unfold http_error_detail. apply substring_length_le.
Qed.

(* ------------------------------------------------------------------ *)
(** ** The file-download proxy *)

(** The proxy succeeds exactly when the SDK download does. *)
Lemma download_file_run resource_id file_id st :
  match sdk_download_file (calls st) resource_id file_id with
  | Ok content =>
      exists st',
        download_file resource_id file_id st
        = (Ok (mkStreamingResponse (VStr "application/octet-stream")
                 [("Content-Disposition",
                   "attachment; filename=" ++ dquote ++ resource_id ++ "_"
                     ++ file_id ++ ".pdf" ++ dquote);
                  ("Content-Length", str_int (Z.of_nat (List.length content)));
                  ("Cache-Control", "private, max-age=3600")]
                 (iter_bytes content)),
           st')
  | Raise e =>
      exists detail st',
        download_file resource_id file_id st
        = (Raise (HTTPException 500 detail), st')
  end.
Proof.
  destruct (sdk_download_file (calls st) resource_id file_id) as [content | e]
    eqn:Hsdk;
    unfold download_file, try_except, download_resource_file;
    unfold bind at 1; unfold try_except at 1; unfold bind at 1;
    unfold external at 1; rewrite Hsdk.
  - unfold ret at 1. cbv beta iota.
    rewrite bind_lift.
    change (content_bytes _) with (Ok (A:=list Byte.byte) content). cbv beta iota.
    rewrite bind_lift.
    change (get _ "content_type" _) with (Ok (VStr "application/octet-stream")).
    cbv beta iota.
    unfold ret. eexists. reflexivity.
  - unfold raise. do 2 eexists. reflexivity.
Qed.

(** C10.  Whenever the file-download proxy succeeds, for every resource id
    and file id and whatever bytes were fetched, it answers with media type
    ["application/octet-stream"] and the header
    [Content-Disposition: attachment; filename="{resource_id}_{file_id}.pdf"];
    the body is the fetched content in 8192-byte chunks. *)
Theorem download_is_pdf_named_octet_stream resource_id file_id st resp st' :
  download_file resource_id file_id st = (Ok resp, st') ->
  media_type resp = VStr "application/octet-stream" /\
  header "Content-Disposition" (headers resp)
    = Some ("attachment; filename=" ++ dquote ++ resource_id ++ "_" ++ file_id
            ++ ".pdf" ++ dquote) /\
  exists content,
    sdk_download_file (calls st) resource_id file_id = Ok content /\
    body_chunks resp = iter_bytes content.
Proof.
  intros H. pose proof (download_file_run resource_id file_id st) as Hrun.
  destruct (sdk_download_file (calls st) resource_id file_id) as [content | e].
  - destruct Hrun as (st1 & Hrun). rewrite Hrun in H.
    inversion H; subst resp. simpl. eauto.
  - destruct Hrun as (detail & st1 & Hrun). rewrite Hrun in H. discriminate H.
Qed.

(* ------------------------------------------------------------------ *)
(** ** The normalizer of the alternate ask path *)

Lemma assoc_dict_set_other k k' v d :
  k <> k' -> assoc k' (dict_set k v d) = assoc k' d.
Proof.
  intros Hne. induction d as [| [k0 v0] d IH]; simpl.
  - destruct (String.eqb_spec k k'); [contradiction | reflexivity].
  - destruct (String.eqb_spec k0 k) as [-> | Hk0]; simpl.
    + destruct (String.eqb_spec k k'); [contradiction | reflexivity].
    + destruct (String.eqb_spec k0 k'); [reflexivity | exact IH].
Qed.

Lemma assoc_dict_set_same k v d : assoc k (dict_set k v d) = Some v.
Proof.
  induction d as [| [k0 v0] d IH]; simpl.
  - now rewrite String.eqb_refl.
  - destruct (String.eqb_spec k0 k) as [-> | Hk0]; simpl.
    + now rewrite String.eqb_refl.
    + destruct (String.eqb_spec k0 k); [contradiction | exact IH].
Qed.

Lemma copy_key_other k k' response res res' :
  k <> k' -> copy_key k response res = Ok res' -> assoc k' res' = assoc k' res.
Proof.
  intros Hne H. unfold copy_key in H. step_ok H.
  destruct a.
  - step_ok H. inversion H; subst res'. now apply assoc_dict_set_other.
  - inversion H. reflexivity.
Qed.

Lemma copy_key_total k d res : exists res', copy_key k (VDict d) res = Ok res'.
Proof.
  unfold copy_key, str_in, has_key, subscript.
  destruct (assoc k d) eqn:E; simpl; eauto.
Qed.

Lemma ask_source_fields idx item src :
  ask_source idx item = Ok src ->
  exists rid,
    get item "rid" VNone = Ok rid /\
    entry_field "resource_id" src = Some rid /\
    entry_field "id" src = Some (VInt (Z.of_nat idx + 1)).
Proof.
  unfold ask_source. intros H. do 5 step_ok H. inversion H; subst src.
  eexists. split; [eassumption |]. split; reflexivity.
Qed.

(** The loop maps [ask_source] over the items, position by position. *)
Lemma ask_sources_loop_ok items :
  forall start sources out,
    ask_sources_loop (combine (seq start (List.length items)) items) sources
      = Ok out ->
    exists new,
      out = (sources ++ new)%list /\
      List.length new = List.length items /\
      forall i item, nth_error items i = Some item ->
        exists src, nth_error new i = Some src /\
                    ask_source (start + i) item = Ok src.
Proof.
  induction items as [| item0 rest IH]; simpl; intros start sources out H.
  - inversion H. exists []. split; [now rewrite app_nil_r |]. split; [reflexivity |].
    intros [| i] item Hi; discriminate Hi.
  - step_ok H. apply IH in H. destruct H as (new & -> & Hlen & Hnth).
    exists (a :: new). split; [now rewrite <- app_assoc |].
    split; [simpl; lia |].
    intros [| i] item Hi; simpl in Hi.
    + inversion Hi; subst item. exists a. rewrite Nat.add_0_r. auto.
    + destruct (Hnth i item Hi) as (src & Hs & Hsrc).
      exists src. split; [exact Hs |].
      now replace (start + S i)%nat with (S start + i)%nat by lia.
Qed.

Lemma ask_sources_loop_total items :
  Forall (fun item => exists kv, item = VDict kv) items ->
  forall start sources,
    exists out,
      ask_sources_loop (combine (seq start (List.length items)) items) sources
        = Ok out.
Proof.
  induction 1 as [| item rest (kv & ->) _ IH]; simpl; intros start sources.
  - eauto.
  - apply IH.
Qed.

(** C9.  For every provider response that contains [retrieval.results], the
    sources the normalizer returns are as many as the retrieval results, and
    the [i]-th source (0-based) has [resource_id] equal to the [rid] of the
    [i]-th result and [id = i + 1].  The normalizer does return when the
    results are JSON objects. *)
Theorem ask_sources_round_trip response retrieval results items :
  subscript response "retrieval" = Ok retrieval ->
  subscript retrieval "results" = Ok results ->
  iter results = Ok items ->
  (forall result,
     parse_nuclia_ask_response response = Ok result ->
     exists sources,
       entry_field "sources" result = Some (VList sources) /\
       List.length sources = List.length items /\
       forall i item, nth_error items i = Some item ->
         exists src rid,
           nth_error sources i = Some src /\
           get item "rid" VNone = Ok rid /\
           entry_field "resource_id" src = Some rid /\
           entry_field "id" src = Some (VInt (Z.of_nat i + 1))) /\
  (Forall (fun item => exists kv, item = VDict kv) items ->
   exists result, parse_nuclia_ask_response response = Ok result).
Proof.
  intros Hret Hres Hitems.
  assert (Hd : exists d, response = VDict d /\ assoc "retrieval" d = Some retrieval).
  { destruct response; try discriminate Hret. simpl in Hret.
    destruct (assoc "retrieval" d) eqn:E; inversion Hret; subst. eauto. }
  destruct Hd as (d & -> & Hd).
  assert (Hr : exists rt, retrieval = VDict rt /\ assoc "results" rt = Some results).
  { destruct retrieval; try discriminate Hres. simpl in Hres.
    destruct (assoc "results" d0) eqn:E; inversion Hres; subst. eauto. }
  destruct Hr as (rt & -> & Hr).
  assert (Hin1 : str_in "retrieval" (VDict d) = Ok true).
  { simpl. unfold has_key. now rewrite Hd. }
  assert (Hin2 : str_in "results" (VDict rt) = Ok true).
  { simpl. unfold has_key. now rewrite Hr. }
  split.
  - intros result H. unfold parse_nuclia_ask_response in H.
    step_ok H. rewrite Hin1 in H. cbn [rbind] in H. cbv beta iota in H.
    rewrite Hret in H. cbn [rbind] in H. rewrite Hin2 in H. cbn [rbind] in H.
    cbv beta iota in H. rewrite Hres in H. cbn [rbind] in H.
    rewrite Hitems in H. cbn [rbind] in H.
    step_ok H. step_ok Hstep0. inversion Hstep0; subst a0. clear Hstep0.
    do 3 step_ok H. inversion H; subst result. clear H.
    unfold enumerate in Hstep1. apply ask_sources_loop_ok in Hstep1.
    destruct Hstep1 as (new & -> & Hlen & Hnth). simpl in *.
    exists new. split; [| split; [exact Hlen |]].
    + repeat match goal with
             | Hc : copy_key ?k _ _ = Ok ?r' |- context [assoc "sources" ?r'] =>
                 rewrite (copy_key_other k "sources" _ _ _ ltac:(discriminate) Hc)
             end.
      apply assoc_dict_set_same.
    + intros i item Hi. destruct (Hnth i item Hi) as (src & Hs & Hsrc).
      apply ask_source_fields in Hsrc. destruct Hsrc as (rid & Hrid & Hf & Hid).
      exists src, rid. auto.
  - intros Hall. unfold parse_nuclia_ask_response.
    destruct (copy_key_total "answer" d
                [("answer", VStr ""); ("sources", VList []); ("metadata", VDict []);
                 ("citations", VDict []); ("relations", VList [])]) as (r1 & H1).
    rewrite H1. cbn [rbind]. rewrite Hin1. cbn [rbind]. cbv beta iota.
    rewrite Hret. cbn [rbind]. rewrite Hin2. cbn [rbind]. cbv beta iota.
    rewrite Hres. cbn [rbind]. rewrite Hitems. cbn [rbind].
    destruct (ask_sources_loop_total items Hall 0%nat []) as (out & Hout).
    unfold enumerate. rewrite Hout. cbn [rbind].
    destruct (copy_key_total "metadata" d (dict_set "sources" (VList out) r1))
      as (r2 & H2).
    rewrite H2. cbn [rbind].
    destruct (copy_key_total "citations" d r2) as (r3 & H3).
    rewrite H3. cbn [rbind].
    destruct (copy_key_total "relations" d r3) as (r4 & H4).
    rewrite H4. cbn [rbind]. eauto.
Qed.

(* ------------------------------------------------------------------ *)
(** ** The survival filter *)

Lemma string_app_assoc (a b c : string) : (a ++ b) ++ c = a ++ (b ++ c).
Proof. induction a as [| x a IH]; simpl; [reflexivity | now rewrite IH]. Qed.

Lemma Forall2_keep_in {A B} (P : A -> option B -> Prop) (Q : B -> Prop) l rs :
  Forall2 P l rs ->
  (forall a b, In a l -> P a (Some b) -> Q b) ->
  Forall Q (keep rs).
Proof.
  intros HF. induction HF as [| a r l rs Hr _ IH]; simpl; intros HQ.
  - constructor.
  - destruct r.
    + constructor; [eapply HQ; [now left | exact Hr] |].
      apply IH. intros a' b' Hin. apply HQ. now right.
    + apply IH. intros a' b' Hin. apply HQ. now right.
Qed.

(** A block is the hit's trimmed text, possibly after a header line. *)
Lemma context_block_kept resources include_metadata score_threshold hit b :
  context_block resources include_metadata score_threshold hit = Ok (Some b) ->
  exists score raw text header,
    get hit "score" (VFloat 1) = Ok score /\
    lt_float score score_threshold = Ok false /\
    get hit "text" VNone = Ok raw /\
    py_strip (py_or raw (VStr "")) = Ok text /\
    text <> "" /\
    b = header ++ text.
Proof.
  unfold context_block. intros H.
  do 2 step_ok H.
  destruct a0; [discriminate H |].
  do 2 step_ok H.
  destruct (String.eqb_spec a1 "") as [| Hne]; [discriminate H |].
  exists a, a0, a1.
  destruct include_metadata.
  - step_ok H. inversion H; subst b. clear H.
    unfold context_block_with_metadata in Hstep3. do 6 step_ok Hstep3.
    match type of Hstep3 with
    | match ?parts with _ => _ end = _ =>
        remember parts as metadata_parts eqn:Hparts; clear Hparts;
        destruct metadata_parts as [| part rest]
    end; injection Hstep3 as <-.
    + exists "". auto 6.
    + exists ("[" ++ join " " (part :: rest) ++ "]" ++ nl).
      repeat (split; [assumption |]).
      rewrite !string_app_assoc. reflexivity.
  - inversion H; subst b. exists "". auto 6.
Qed.

(** X1.  Every block the Context Builder emits comes from a hit of the
    max-chunk window whose score is not below the threshold and whose text is
    not empty once trimmed ([str.strip], Unicode white space included); the
    block is that trimmed text, possibly preceded by a metadata header. *)
Theorem context_blocks_pass_the_filter search_json max_chunks include_metadata
    score_threshold blocks :
  build_context_blocks search_json max_chunks include_metadata score_threshold
    = Ok blocks ->
  exists para hits,
    paragraph_results search_json = Ok para /\
    slice_iter para max_chunks = Ok hits /\
    Forall (fun b =>
              exists hit score raw text header,
                In hit hits /\
                get hit "score" (VFloat 1) = Ok score /\
                lt_float score score_threshold = Ok false /\
                get hit "text" VNone = Ok raw /\
                py_strip (py_or raw (VStr "")) = Ok text /\
                text <> "" /\
                b = header ++ text)
           blocks.
Proof.
  intros H. apply build_context_blocks_ok in H.
  destruct H as (para & resources & hits & rs & Hp & Hs & HF & ->).
  exists para, hits. split; [exact Hp |]. split; [exact Hs |].
  eapply Forall2_keep_in; [exact HF |].
  intros hit b Hin Hb. apply context_block_kept in Hb.
  destruct Hb as (score & raw & text & header & Hb).
  exists hit, score, raw, text, header. split; [exact Hin | exact Hb].
Qed.

(** Past the filter, an iteration of the extractor's loop ends in an append
    or in an exception, never in a [continue]. *)
Lemma source_tail_never_continues (m : M value) st st' :
  bind m (fun source => ret (Some source)) st <> (Ok None, st').
Proof.
  unfold bind, ret. destruct (m st) as [[a | e] s]; intros H; inversion H.
Qed.

Lemma source_of_hit_dropped resources score_threshold idx hit st st' :
  source_of_hit resources score_threshold idx hit st = (Ok None, st') ->
  st' = st /\
  exists score,
    get hit "score" (VFloat 0) = Ok score /\
    (lt_float score score_threshold = Ok true \/
     (lt_float score score_threshold = Ok false /\
      exists raw, get hit "text" VNone = Ok raw /\
                  py_strip (py_or raw (VStr "")) = Ok "")).
Proof.
  unfold source_of_hit. intros H.
  do 2 step_ok H.
  destruct a0.
  { apply ret_ok in H. destruct H as [_ ->]. split; [reflexivity |]. eauto. }
  do 2 step_ok H.
  destruct (String.eqb_spec a1 "") as [-> | Hne].
  { apply ret_ok in H. destruct H as [_ ->]. split; [reflexivity |]. eauto 8. }
  exfalso.
  do 6 step_ok H.
  apply bind_ok in H. destruct H as ([url info] & st1 & _ & H).
  do 4 step_ok H.
  apply ret_ok in H. destruct H as [H _]. discriminate H.
Qed.

Lemma context_block_dropped resources include_metadata score_threshold hit :
  context_block resources include_metadata score_threshold hit = Ok None ->
  exists score,
    get hit "score" (VFloat 1) = Ok score /\
    (lt_float score score_threshold = Ok true \/
     (lt_float score score_threshold = Ok false /\
      exists raw, get hit "text" VNone = Ok raw /\
                  py_strip (py_or raw (VStr "")) = Ok "")).
Proof.
  unfold context_block. intros H.
  do 2 step_ok H.
  destruct a0; [eauto |].
  do 2 step_ok H.
  destruct (String.eqb_spec a1 "") as [-> | Hne]; [eauto 8 |].
  exfalso. destruct include_metadata; [step_ok H |]; discriminate H.
Qed.

(** Whether the two score defaults are told apart by the threshold. *)
Lemma defaults_pass_nonpositive_threshold score_threshold :
  (score_threshold <= 0)%Q ->
  lt_float (VFloat 1) score_threshold = Ok false /\
  lt_float (VFloat 0) score_threshold = Ok false.
Proof.
  intros Hle. simpl. split; f_equal; apply negb_false_iff; apply Qle_bool_iff.
  - eapply Qle_trans; [exact Hle | discriminate].
  - exact Hle.
Qed.

Lemma drop_decisions_agree resources resources' include_metadata
    score_threshold idx h st :
  (exists score, assoc "score" h = Some score) \/ (score_threshold <= 0)%Q ->
  (context_block resources include_metadata score_threshold (VDict h) = Ok None
   <->
   source_of_hit resources' score_threshold idx (VDict h) st = (Ok None, st)).
Proof.
  intros Hscore.
  assert (Hsame :
    forall b, lt_float (match assoc "score" h with
                        | Some v => v | None => VFloat 1 end) score_threshold
              = Ok b <->
              lt_float (match assoc "score" h with
                        | Some v => v | None => VFloat 0 end) score_threshold
              = Ok b).
  { destruct Hscore as [(score & ->) | Hle]; [intros b; reflexivity |].
    destruct (assoc "score" h); [intros b; reflexivity |].
    destruct (defaults_pass_nonpositive_threshold _ Hle) as [H1 H0].
    intros b. rewrite H1, H0. reflexivity. }
  split.
  - intros H. apply context_block_dropped in H.
    destruct H as (score & Hs & Hd). simpl in Hs. inversion Hs; subst score.
    unfold source_of_hit. rewrite bind_lift.
    change (get (VDict h) "score" (VFloat 0))
      with (Ok (match assoc "score" h with Some v => v | None => VFloat 0 end)).
    cbv beta iota. rewrite bind_lift.
    destruct Hd as [Hlt | (Hlt & raw & Hraw & Htext)];
      apply Hsame in Hlt; rewrite Hlt; cbv beta iota; [reflexivity |].
    rewrite bind_lift, Hraw. cbv beta iota.
    rewrite bind_lift, Htext. reflexivity.
  - intros H. apply source_of_hit_dropped in H.
    destruct H as (_ & score & Hs & Hd). simpl in Hs. inversion Hs; subst score.
    unfold context_block.
    change (get (VDict h) "score" (VFloat 1))
      with (Ok (match assoc "score" h with Some v => v | None => VFloat 1 end)).
    cbn [rbind].
    destruct Hd as [Hlt | (Hlt & raw & Hraw & Htext)];
      apply Hsame in Hlt; rewrite Hlt; cbn [rbind]; [reflexivity |].
    rewrite Hraw. cbn [rbind]. rewrite Htext. reflexivity.
Qed.

(** X2.  On a hit that carries a ["score"] field, or under a threshold that
    is not positive, the Context Builder and the Source Extractor take the
    same drop decision: one skips the hit exactly when the other does. *)
Theorem filters_agree_on_scored_hits resources resources' include_metadata
    score_threshold idx h st :
  (exists score, assoc "score" h = Some score) \/ (score_threshold <= 0)%Q ->
  (context_block resources include_metadata score_threshold (VDict h) = Ok None
   <->
   source_of_hit resources' score_threshold idx (VDict h) st = (Ok None, st)).
Proof. apply drop_decisions_agree. Qed.

Lemma context_block_dropped_anyway resources resources' include_metadata
    include_metadata' score_threshold hit :
  context_block resources include_metadata score_threshold hit = Ok None ->
  context_block resources' include_metadata' score_threshold hit = Ok None.
Proof.
  intros H. apply context_block_dropped in H.
  destruct H as (score & Hs & Hd). unfold context_block.
  rewrite Hs. cbn [rbind].
  destruct Hd as [Hlt | (Hlt & raw & Hraw & Htext)]; rewrite Hlt; cbn [rbind];
    [reflexivity |].
  rewrite Hraw. cbn [rbind]. rewrite Htext. reflexivity.
Qed.

Lemma context_loop_all_dropped resources include_metadata score_threshold hits :
  Forall (fun hit =>
            context_block resources include_metadata score_threshold hit
              = Ok None) hits ->
  forall blocks,
    context_loop resources include_metadata score_threshold hits blocks
      = Ok blocks.
Proof.
  induction 1 as [| hit rest Hhit _ IH]; simpl; intros blocks.
  - reflexivity.
  - rewrite Hhit. cbn [rbind]. apply IH.
Qed.

Lemma sources_loop_all_dropped resources score_threshold hits :
  Forall (fun ih => forall st,
            source_of_hit resources score_threshold (fst ih) (snd ih) st
              = (Ok None, st)) hits ->
  forall sources st,
    sources_loop resources score_threshold hits sources st = (Ok sources, st).
Proof.
  induction 1 as [| [idx hit] rest Hhit _ IH]; simpl; intros sources st.
  - reflexivity.
  - unfold bind at 1. simpl in Hhit. rewrite Hhit. apply IH.
Qed.

Lemma Forall_combine_snd {A B} (P : B -> Prop) (Q : A * B -> Prop) :
  (forall a b, P b -> Q (a, b)) ->
  forall (l : list B) (idxs : list A),
    Forall P l -> Forall Q (combine idxs l).
Proof.
  intros HPQ l. induction l as [| b l IH]; intros [| a idxs] HF; simpl;
    try constructor.
  - apply HPQ. now inversion HF.
  - apply IH. now inversion HF.
Qed.

(** X3.  For a top-level payload (no [raw_response]) whose window holds only
    hits that the Context Builder drops, each carrying a score unless the
    threshold is not positive: [build_context] returns the empty string, and
    [extract_sources_info] returns the empty list without any external
    call. *)
Theorem nothing_survives_nothing_emitted d para hits max_chunks
    include_metadata score_threshold st :
  assoc "raw_response" d = None ->
  paragraph_results (VDict d) = Ok para ->
  slice_iter para max_chunks = Ok hits ->
  Forall (fun hit =>
            exists h,
              hit = VDict h /\
              ((exists score, assoc "score" h = Some score) \/
               (score_threshold <= 0)%Q) /\
              context_block (VDict []) false score_threshold hit = Ok None)
         hits ->
  build_context (VDict d) max_chunks include_metadata score_threshold = Ok "" /\
  extract_sources_info (VDict d) max_chunks score_threshold st
    = (Ok [], mkStore (calls st) []).
Proof.
  intros Hraw Hpara Hslice Hall. split.
  - unfold build_context, build_context_blocks.
    rewrite Hpara. cbn [rbind]. simpl get. cbn [rbind]. rewrite Hslice.
    cbn [rbind]. rewrite context_loop_all_dropped; [reflexivity |].
    eapply Forall_impl; [| exact Hall].
    intros hit (h & _ & _ & Hdrop).
    eapply context_block_dropped_anyway; exact Hdrop.
  - unfold extract_sources_info.
    assert (Hsel : select_retrieval_results (VDict d) = Ok (VDict d)).
    { unfold select_retrieval_results. simpl get. rewrite Hraw. reflexivity. }
    rewrite bind_lift, Hsel. cbv beta iota.
    rewrite bind_lift. simpl get. cbv beta iota.
    rewrite bind_lift, Hpara. cbv beta iota.
    unfold bind at 1. unfold cache_reset at 1. cbv beta iota.
    rewrite bind_lift, Hslice. cbv beta iota.
    apply sources_loop_all_dropped.
    unfold enumerate. apply Forall_combine_snd with
      (P := fun hit => exists h,
              hit = VDict h /\
              ((exists score, assoc "score" h = Some score) \/
               (score_threshold <= 0)%Q) /\
              context_block (VDict []) false score_threshold hit = Ok None);
      [| exact Hall].
    intros idx hit (h & -> & Hscore & Hdrop) st1. simpl.
    eapply drop_decisions_agree; eassumption.
Qed.

(* ------------------------------------------------------------------ *)
(** ** The SDK wrappers and the memo *)

(** X4.  [get_nuclia_resource] asks the SDK first.  When the SDK answers,
    that answer is returned and no HTTP request is made.  When the SDK fails,
    its error is dropped and exactly one GET on
    [{base}/kb/{kb}/resource/{id}] decides the outcome: a network failure or
    an error status (400-599) is raised, a body that is not JSON is raised,
    and otherwise the parsed JSON is returned. *)
Theorem get_nuclia_resource_falls_back_to_http resource_id st :
  (forall data,
     sdk_resource_get (calls st) resource_id = Ok data ->
     get_nuclia_resource resource_id st
     = (Ok data,
        mkStore (calls st ++ [SdkResourceGet resource_id])%list
                (resources_cache st))) /\
  (forall e,
     sdk_resource_get (calls st) resource_id = Raise e ->
     let url := NUCLIA_API_BASE ++ "/kb/" ++ KB ++ "/resource/"
                  ++ py_str resource_id in
     let trace := (calls st ++ [SdkResourceGet resource_id])%list in
     get_nuclia_resource resource_id st
     = (r <~ requests_get trace url VNone ;;
        _ <~ raise_for_status r ;;
        response_json r,
        mkStore (trace ++ [RequestsGet url HEADERS VNone])%list
                (resources_cache st))).
Proof.
  split.
  - intros data H. unfold get_nuclia_resource, try_except, external.
    rewrite H. reflexivity.
  - intros e H url trace. unfold get_nuclia_resource, try_except.
    unfold external at 1. rewrite H. cbv beta iota.
    unfold bind at 1. unfold external at 1. cbv beta iota. simpl calls.
    fold url. fold trace.
    destruct (requests_get trace url VNone) as [r | e']; [| reflexivity].
    cbn [rbind]. rewrite bind_lift.
    destruct (raise_for_status r); [| reflexivity].
    cbn [rbind]. reflexivity.
Qed.

Lemma get_nuclia_resource_keeps_cache resource_id st :
  resources_cache (snd (get_nuclia_resource resource_id st))
  = resources_cache st.
Proof.
  unfold get_nuclia_resource, try_except.
  unfold external at 1.
  destruct (sdk_resource_get (calls st) resource_id); [reflexivity |].
  unfold bind at 1. unfold external at 1.
  match goal with
  | |- context [requests_get ?h ?u ?p] => destruct (requests_get h u p) as [r | e']
  end; [| reflexivity].
  rewrite bind_lift. destruct (raise_for_status r); [| reflexivity].
  unfold lift. reflexivity.
Qed.

(** X5.  [get_temporal_download_url] never raises and makes exactly one SDK
    call: it returns the SDK's URL when the call succeeds and the standard
    download URL [{base}/kb/{kb}/resource/{id}/file/{file_id}/download] when
    it fails. *)
Theorem get_temporal_download_url_never_raises resource_id file_id ttl st :
  exists u,
    get_temporal_download_url resource_id file_id ttl st
    = (Ok u,
       mkStore (calls st ++ [SdkTemporalDownloadUrl resource_id file_id ttl])%list
               (resources_cache st)) /\
    (forall v,
       sdk_temporal_download_url (calls st) resource_id file_id ttl = Ok v ->
       u = v) /\
    (forall e,
       sdk_temporal_download_url (calls st) resource_id file_id ttl = Raise e ->
       u = VStr (standard_download_url resource_id file_id)).
Proof.
  unfold get_temporal_download_url, try_except, external.
  destruct (sdk_temporal_download_url (calls st) resource_id file_id ttl)
    as [v | e]; eexists; (split; [reflexivity |]); split; intros x Hx;
    inversion Hx; reflexivity.
Qed.

(** X6.  The authoritative lookup is memoised per request: once it has
    succeeded for a resource id, asking again returns the same details and
    touches nothing (no external call).  A failed lookup is not memoised. *)
Theorem lookup_is_memoised rid st :
  (forall details st1,
     cached_resource (VStr rid) st = (Ok details, st1) ->
     cached_resource (VStr rid) st1 = (Ok details, st1)) /\
  (forall e st1,
     cached_resource (VStr rid) st = (Raise e, st1) ->
     resources_cache st1 = resources_cache st).
Proof.
  unfold cached_resource. split.
  - intros details st1 H.
    unfold bind at 1 in H. unfold cache_read at 1 in H. cbv beta iota in H.
    unfold bind at 1. unfold cache_read at 1. cbv beta iota.
    destruct (cache_lookup (VStr rid) (resources_cache st)) as [d |] eqn:Hc.
    + apply ret_ok in H. destruct H as [-> ->]. rewrite Hc. reflexivity.
    + step_ok H. step_ok H.
      apply ret_ok in H. destruct H as [-> ->].
      unfold cache_store in Hstep0. inversion Hstep0; subst.
      simpl. rewrite String.eqb_refl. reflexivity.
  - intros e st1 H.
    unfold bind at 1 in H. unfold cache_read at 1 in H. cbv beta iota in H.
    destruct (cache_lookup (VStr rid) (resources_cache st)) as [d |] eqn:Hc.
    + discriminate H.
    + unfold bind at 1 in H.
      pose proof (get_nuclia_resource_keeps_cache (VStr rid) st) as Hk.
      destruct (get_nuclia_resource (VStr rid) st) as [[d | e'] st'].
      * discriminate H.
      * inversion H; subst. exact Hk.
Qed.

(** What [scan_files] does to the store: nothing, or one download-URL call
    for one of the file fields. *)
Lemma scan_files_calls resource_id title files :
  forall st out st',
    scan_files resource_id title files st = (out, st') ->
    resources_cache st' = resources_cache st /\
    ((calls st' = calls st /\
      (out = Ok (VStr "", VNone) \/ exists e, out = Raise e)) \/
     (exists file_id,
        In file_id (map fst files) /\
        calls st'
        = (calls st ++ [SdkTemporalDownloadUrl resource_id file_id 3600])%list)).
Proof.
  induction files as [| [file_id file_info] rest IH]; intros st out st' H;
    simpl in H.
  - inversion H; subst. split; [reflexivity |]. left. auto.
  - repeat (rewrite bind_lift in H;
            match type of H with
            | match ?r with Ok _ => _ | Raise _ => _ end = _ =>
                destruct r;
                [| inversion H; subst; split; [reflexivity | left; eauto]]
            end).
    match type of H with (if ?c then _ else _) _ = _ => destruct c end.
    + unfold bind at 1 in H.
      destruct (temporal_url_total resource_id file_id 3600 st) as (u & Hu).
      rewrite Hu in H. cbv beta iota in H. rewrite bind_lift in H.
      match type of H with
      | match ?r with Ok _ => _ | Raise _ => _ end = _ => destruct r
      end; inversion H; subst; simpl;
        (split; [reflexivity | right; exists file_id; auto]).
    + destruct (IH _ _ _ H) as (Hc & Hcalls). split; [exact Hc |].
      destruct Hcalls as [Hsame | (fid & Hin & Hcall)]; [left; exact Hsame |].
      right. exists fid. split; [now right | exact Hcall].
Qed.

(** X7.  Whatever the file listing holds, scanning it makes at most one
    download-URL request, always with a time-to-live of 3600 seconds and for
    one of the listed file fields, and leaves the memo alone; when no request
    is made the scan found no file (or failed) and yields no descriptor. *)
Theorem scan_files_requests_at_most_one_url resource_id title files st out st' :
  scan_files resource_id title files st = (out, st') ->
  resources_cache st' = resources_cache st /\
  ((calls st' = calls st /\
    (out = Ok (VStr "", VNone) \/ exists e, out = Raise e)) \/
   (exists file_id,
      In file_id (map fst files) /\
      calls st'
      = (calls st ++ [SdkTemporalDownloadUrl resource_id file_id 3600])%list)).
Proof. apply scan_files_calls. Qed.

Lemma scan_files_result resource_id title files :
  forall st url info st',
    scan_files resource_id title files st = (Ok (url, info), st') ->
    (url = VStr "" /\ info = VNone) \/
    (truthy info = true /\
     entry_field "download_url" info = Some url /\
     entry_field "ttl" info = Some (VInt 3600)).
Proof.
  induction files as [| [file_id file_info] rest IH]; simpl;
    intros st url info st' H.
  - apply ret_ok in H. destruct H as [H _]. inversion H. now left.
  - do 5 step_ok H.
    match type of H with (if ?c then _ else _) _ = _ => destruct c eqn:T end.
    + do 2 step_ok H. apply ret_ok in H. destruct H as [H _].
      inversion H; subst. right.
      unfold file_descriptor in Hstep5. step_ok Hstep5.
      inversion Hstep5; subst. simpl. auto.
    + eapply IH; eassumption.
Qed.

(** X8.  The [try] block of the file branch never lets an exception out.
    It yields either no URL and no descriptor, or a descriptor whose
    [download_url] is the URL it yields and whose [ttl] is 3600. *)
Theorem file_branch_never_raises resource_id title st :
  exists url info st',
    file_branch resource_id title st = (Ok (url, info), st') /\
    ((url = VStr "" /\ info = VNone) \/
     (truthy info = true /\
      entry_field "download_url" info = Some url /\
      entry_field "ttl" info = Some (VInt 3600))).
Proof.
  unfold file_branch, try_except.
  match goal with
  | |- context [match ?body with _ => _ end] =>
      destruct body as [[[u i] | e] st1] eqn:B
  end.
  - exists u, i, st1. split; [reflexivity |].
    do 4 step_ok B. eapply scan_files_result; eassumption.
  - unfold ret. exists (VStr ""), VNone, st1. auto.
Qed.

(* ------------------------------------------------------------------ *)
(** ** Links, URLs and texts of the entries *)

Lemma py_or_truthy a b : truthy a = true -> py_or a b = a.
Proof. unfold py_or. now intros ->. Qed.

Lemma py_or_falsy a b : truthy a = false -> py_or a b = b.
Proof. unfold py_or. now intros ->. Qed.

Lemma link_branch_total info : exists url, link_branch (VDict info) = Ok url.
Proof.
  unfold link_branch. simpl get. cbn [rbind].
  match goal with
  | |- context [match ?origin with VDict _ => _ | _ => _ end] =>
      destruct origin; simpl get; cbn [rbind]
  end;
  match goal with
  | |- context [if ?c then _ else _] => destruct c; [| eauto]
  end;
  match goal with
  | |- context [match ?metadata with VDict _ => _ | _ => _ end] =>
      destruct metadata; simpl get; cbn [rbind]; eauto
  end.
Qed.

(** X9.  Resolving the display URL of a link resource never raises.  When
    [origin] and [metadata] are objects (or absent), the URL is the first
    non-empty value among [origin.url], [origin.path], [metadata.uri] and
    [metadata.url], in that order (the last one when all are empty). *)
Theorem link_url_priority info :
  (exists url, link_branch (VDict info) = Ok url) /\
  (forall o m,
     get (VDict info) "origin" (VDict []) = Ok (VDict o) ->
     get (VDict info) "metadata" (VDict []) = Ok (VDict m) ->
     link_branch (VDict info)
     = Ok (py_or (py_or (py_or (field_or_empty "url" o)
                               (field_or_empty "path" o))
                        (field_or_empty "uri" m))
                 (field_or_empty "url" m))).
Proof.
  split; [apply link_branch_total |].
  intros o m Ho Hm. unfold link_branch. rewrite Ho. cbn [rbind].
  change (get (VDict o) "url" (VStr "")) with (Ok (field_or_empty "url" o)).
  change (get (VDict o) "path" (VStr "")) with (Ok (field_or_empty "path" o)).
  cbn [rbind].
  destruct (truthy (py_or (field_or_empty "url" o) (field_or_empty "path" o)))
    eqn:T; cbn [negb].
  - now rewrite !(py_or_truthy _ _ T).
  - rewrite Hm. cbn [rbind].
    change (get (VDict m) "uri" (VStr "")) with (Ok (field_or_empty "uri" m)).
    change (get (VDict m) "url" (VStr "")) with (Ok (field_or_empty "url" m)).
    cbn [rbind]. now rewrite (py_or_falsy _ (field_or_empty "uri" m) T).
Qed.

Lemma base_url_not_empty a b : a ++ "/kb/" ++ b <> "".
Proof. destruct a; discriminate. Qed.

Lemma classify_url_tag url t :
  classify_url url = Ok t ->
  In t url_types /\ (t = "none" <-> truthy url = false).
Proof.
  unfold classify_url, url_types. destruct (truthy url).
  - intros H. step_ok H. destruct a.
    + step_ok H. inversion H; subst t.
      destruct a; simpl; (split; [auto 10 |]); split; discriminate.
    + inversion H; subst t. simpl. split; [auto 10 |]. split; discriminate.
  - intros H. inversion H; subst t. simpl. split; [auto 10 |].
    split; reflexivity.
Qed.

Lemma make_source_fields idx title text score page_num field resource_id
    url url_type resource_type file_download_info e :
  make_source idx title text score page_num field resource_id url url_type
    resource_type file_download_info = Ok e ->
  entry_field "text" e = Some (VStr text) /\
  entry_field "resource_id" e = Some resource_id /\
  entry_field "url" e = Some url /\
  entry_field "url_type" e = Some (VStr url_type) /\
  entry_field "has_url" e = Some (VBool (truthy url)) /\
  entry_field "score" e
    = Some (if truthy score
            then match round3 score with Ok v => v | Raise _ => VNone end
            else VNone).
Proof.
  unfold make_source. intros H. step_ok H. inversion H; subst e; clear H.
  assert (Hs : a = if truthy score
                   then match round3 score with Ok v => v | Raise _ => VNone end
                   else VNone).
  { destruct (truthy score); [rewrite Hstep; reflexivity | now inversion Hstep]. }
  rewrite <- Hs.
  destruct (truthy file_download_info); simpl; auto 10.
Qed.

(** What an appended entry records of its hit and of the resolved URL. *)
Lemma source_of_hit_fields resources score_threshold idx hit st e st' :
  source_of_hit resources score_threshold idx hit st = (Ok (Some e), st') ->
  exists raw text resource_id url url_type,
    get hit "text" VNone = Ok raw /\
    py_strip (py_or raw (VStr "")) = Ok text /\
    text <> "" /\
    get hit "rid" (VStr "") = Ok resource_id /\
    classify_url url = Ok url_type /\
    (truthy resource_id = true -> truthy url = true) /\
    entry_field "text" e = Some (VStr text) /\
    entry_field "resource_id" e = Some resource_id /\
    entry_field "url" e = Some url /\
    entry_field "url_type" e = Some (VStr url_type) /\
    entry_field "has_url" e = Some (VBool (truthy url)).
Proof.
  unfold source_of_hit. intros H.
  do 2 step_ok H.
  match type of H with (if ?c then _ else _) _ = _ => destruct c end;
    [apply ret_ok in H; destruct H; discriminate |].
  do 2 step_ok H.
  match type of H with
  | (if ?t =? "" then _ else _) _ = _ =>
      destruct (String.eqb_spec t "") as [| Hne]
  end; [apply ret_ok in H; destruct H; discriminate |].
  do 6 step_ok H.
  apply bind_ok in H. destruct H as ([url0 info] & st1 & _ & H).
  do 4 step_ok H.
  apply ret_ok in H. destruct H as [H _]. inversion H; subst.
  match goal with
  | Hm : make_source _ _ _ _ _ _ ?rid ?u _ _ _ = Ok _,
    Hc : classify_url ?u = Ok _ |- _ =>
      apply make_source_fields in Hm;
      destruct Hm as (Ht & Hr & Hu & Hut & Hh & _);
      exists a0, a1, rid, u; eexists;
      repeat (split; [eassumption |])
  end.
  split; [| auto 6].
  intros Trid. rewrite Trid, andb_true_r.
  destruct (truthy url0) eqn:T; simpl; [exact T |].
  match goal with
  | |- context [?x =? ""] =>
      destruct (String.eqb_spec x "") as [E |];
      [now apply base_url_not_empty in E | reflexivity]
  end.
Qed.

(** X10.  In every entry the extractor returns, [has_url] tells whether [url]
    is non-empty, [url_type] is one of none / nuclia / external / resource
    and is "none" exactly when there is no URL, and an entry with a
    resource id always has a URL (the reference URL at the least). *)
Theorem entries_url_invariants search_json max_chunks score_threshold st
    sources st' :
  extract_sources_info search_json max_chunks score_threshold st
    = (Ok sources, st') ->
  Forall (fun e =>
            exists url url_type resource_id,
              entry_field "url" e = Some url /\
              entry_field "has_url" e = Some (VBool (truthy url)) /\
              entry_field "url_type" e = Some (VStr url_type) /\
              In url_type url_types /\
              (url_type = "none" <-> truthy url = false) /\
              entry_field "resource_id" e = Some resource_id /\
              (truthy resource_id = true -> truthy url = true))
         sources.
Proof.
  intros H. apply extract_sources_info_ok in H.
  destruct H as (rr & resources & para & hits & rs & _ & _ & _ & _ & HF & ->).
  eapply Forall2_keep; [exact HF |].
  intros [idx hit] e (s1 & s2 & He). simpl in He.
  apply source_of_hit_fields in He.
  destruct He as (raw & text & rid & url & ut & _ & _ & _ & _ & Hc & Hrid & _
                  & Hr & Hu & Hut & Hh).
  apply classify_url_tag in Hc. destruct Hc as [Hin Hnone].
  exists url, ut, rid. auto 10.
Qed.

Lemma starts_with_length w s :
  starts_with w s = true -> (String.length w <= String.length s)%nat.
Proof.
  revert s. induction w as [| a w IH]; intros s H; simpl; [lia |].
  destruct s as [| b s]; [discriminate |]. simpl in *.
  apply andb_prop in H. destruct H as [_ H]. apply IH in H. lia.
Qed.

Lemma starts_with_app w p q :
  starts_with w p = true -> starts_with w (p ++ q) = true.
Proof.
  revert p. induction w as [| a w IH]; intros p H; [reflexivity |].
  destruct p as [| b p]; [discriminate |]. simpl in *.
  apply andb_prop in H. destruct H as [Hab H].
  rewrite Hab, (IH _ H). reflexivity.
Qed.

Lemma leading_prefix chars p q :
  leading chars (p ++ q) = None -> leading chars p = None.
Proof.
  unfold leading. induction chars as [| w chars IH]; [reflexivity |].
  simpl. destruct (starts_with w (p ++ q)) eqn:E; [discriminate |].
  destruct (starts_with w p) eqn:E'; [| exact IH].
  apply (starts_with_app _ _ q) in E'. congruence.
Qed.

Lemma leading_some chars s w :
  leading chars s = Some w -> In w chars /\ starts_with w s = true.
Proof. unfold leading. intros H. apply find_some in H. exact H. Qed.

Lemma drop_length n s : String.length (drop n s) = (String.length s - n)%nat.
Proof.
  revert s. induction n as [| n IH]; intros s; simpl; [lia |].
  destruct s; simpl; [reflexivity | apply IH].
Qed.

Lemma drop_suffix n s : exists a, s = a ++ drop n s.
Proof.
  revert s. induction n as [| n IH]; intros s; [now exists "" |].
  destruct s as [| c s]; [now exists "" |].
  destruct (IH s) as (a & Ha). exists (String c a). simpl. now rewrite <- Ha.
Qed.

(** [strip_with] returns what is left of the text after a prefix. *)
Lemma strip_with_suffix chars fuel s : exists a, s = a ++ strip_with chars fuel s.
Proof.
  revert s. induction fuel as [| fuel IH]; intros s; [now exists "" |].
  simpl. destruct (leading chars s) as [w |]; [| now exists ""].
  destruct (drop_suffix (String.length w) s) as (a & Ha).
  destruct (IH (drop (String.length w) s)) as (b & Hb).
  exists (a ++ b). rewrite string_app_assoc, <- Hb. exact Ha.
Qed.

(** The length of the text is fuel enough: what [strip_with] returns starts
    with none of the characters. *)
Lemma strip_with_clean chars fuel s :
  Forall (fun w => w <> "") chars ->
  (String.length s <= fuel)%nat ->
  leading chars (strip_with chars fuel s) = None.
Proof.
  intros Hne. revert s. induction fuel as [| fuel IH]; intros s Hlen.
  - simpl. destruct (leading chars s) as [w |] eqn:E; [| reflexivity].
    apply leading_some in E. destruct E as [Hin Hw].
    apply starts_with_length in Hw.
    rewrite Forall_forall in Hne. specialize (Hne _ Hin).
    destruct w; [congruence | simpl in Hw; lia].
  - simpl. destruct (leading chars s) as [w |] eqn:E; [| exact E].
    apply IH. apply leading_some in E. destruct E as [Hin Hw].
    apply starts_with_length in Hw.
    rewrite Forall_forall in Hne. specialize (Hne _ Hin).
    rewrite drop_length. destruct w; [congruence | simpl in *; lia].
Qed.

Lemma strip_from_clean chars s :
  Forall (fun w => w <> "") chars -> leading chars (strip_from chars s) = None.
Proof. intros H. apply strip_with_clean; [exact H | lia]. Qed.

Lemma strip_from_fixed chars s :
  leading chars s = None -> strip_from chars s = s.
Proof.
  intros H. unfold strip_from. destruct (String.length s); simpl; [reflexivity |].
  now rewrite H.
Qed.

Lemma list_ascii_app a b :
  list_ascii_of_string (a ++ b)
  = (list_ascii_of_string a ++ list_ascii_of_string b)%list.
Proof. induction a; simpl; [reflexivity | now rewrite IHa]. Qed.

Lemma string_of_list_app l1 l2 :
  string_of_list_ascii (l1 ++ l2)%list
  = string_of_list_ascii l1 ++ string_of_list_ascii l2.
Proof. induction l1; simpl; [reflexivity | now rewrite IHl1]. Qed.

Lemma reverse_involutive s : reverse (reverse s) = s.
Proof.
  unfold reverse. rewrite list_ascii_of_string_of_list_ascii, rev_involutive.
  apply string_of_list_ascii_of_string.
Qed.

Lemma reverse_app a b : reverse (a ++ b) = reverse b ++ reverse a.
Proof.
  unfold reverse. now rewrite list_ascii_app, rev_app_distr, string_of_list_app.
Qed.

Lemma white_space_nonempty : Forall (fun w => w <> "") white_space.
Proof. repeat constructor; discriminate. Qed.

Lemma reversed_white_space_nonempty :
  Forall (fun w => w <> "") (map reverse white_space).
Proof. repeat constructor; discriminate. Qed.

Lemma lstrip_clean s : leading white_space (lstrip s) = None.
Proof. apply strip_from_clean, white_space_nonempty. Qed.

Lemma rstrip_clean s :
  leading (map reverse white_space) (reverse (rstrip s)) = None.
Proof.
  unfold rstrip. rewrite reverse_involutive.
  apply strip_from_clean, reversed_white_space_nonempty.
Qed.

Lemma rstrip_prefix s : exists q, s = rstrip s ++ q.
Proof.
  unfold rstrip, strip_from.
  destruct (strip_with_suffix (map reverse white_space)
              (String.length (reverse s)) (reverse s)) as (a & Ha).
  exists (reverse a).
  rewrite <- reverse_app, <- Ha. symmetry. apply reverse_involutive.
Qed.

Lemma rstrip_keeps_clean s :
  leading white_space s = None -> leading white_space (rstrip s) = None.
Proof.
  intros H. destruct (rstrip_prefix s) as (q & Hq).
  rewrite Hq in H. exact (leading_prefix _ _ _ H).
Qed.

Lemma rstrip_fixed s :
  leading (map reverse white_space) (reverse s) = None -> rstrip s = s.
Proof.
  intros H. unfold rstrip. rewrite (strip_from_fixed _ _ H).
  apply reverse_involutive.
Qed.

(** What [strip] returns neither starts nor ends with white space. *)
Lemma strip_clean s :
  leading white_space (strip s) = None /\
  leading (map reverse white_space) (reverse (strip s)) = None.
Proof.
  unfold strip. split; [| apply rstrip_clean].
  apply rstrip_keeps_clean, lstrip_clean.
Qed.

Lemma strip_idempotent s : strip (strip s) = strip s.
Proof.
  destruct (strip_clean s) as [Hl Hr].
  unfold strip at 1. unfold lstrip. rewrite (strip_from_fixed _ _ Hl).
  apply rstrip_fixed, Hr.
Qed.

(** X11.  The text of every returned entry is the hit's text trimmed as
    [str.strip] trims it: it is never empty and neither starts nor ends with
    a white-space character (Unicode white space included), so that trimming
    it again changes nothing. *)
Theorem entry_texts_are_trimmed search_json max_chunks score_threshold st
    sources st' :
  extract_sources_info search_json max_chunks score_threshold st
    = (Ok sources, st') ->
  Forall (fun e =>
            exists text,
              entry_field "text" e = Some (VStr text) /\
              text <> "" /\
              no_leading_space text /\
              no_trailing_space text /\
              strip text = text)
         sources.
Proof.
  intros H. apply extract_sources_info_ok in H.
  destruct H as (rr & resources & para & hits & rs & _ & _ & _ & _ & HF & ->).
  eapply Forall2_keep; [exact HF |].
  intros [idx hit] e (s1 & s2 & He). simpl in He.
  apply source_of_hit_fields in He.
  destruct He as (raw & text & rid & url & ut & _ & Hstrip & Hne & _ & _ & _
                  & Ht & _).
  exists text. split; [exact Ht |]. split; [exact Hne |].
  unfold py_strip in Hstrip. destruct (py_or raw (VStr "")); try discriminate.
  injection Hstrip as <-.
  destruct (strip_clean s) as [Hl Hr].
  split; [exact Hl |]. split; [exact Hr |]. apply strip_idempotent.
Qed.

(** A hit that does not enter the file branch leaves the store untouched. *)
Lemma non_file_hit_is_silent resources score_threshold idx hit rid info icon st :
  get hit "rid" (VStr "") = Ok rid ->
  get_key resources rid (VDict []) = Ok info ->
  get info "icon" (VStr "") = Ok icon ->
  is_file icon <> Ok true \/ truthy rid = false ->
  snd (source_of_hit resources score_threshold idx hit st) = st.
Proof.
  intros Hrid Hinfo Hicon Hnot. unfold source_of_hit.
  exec_lift. exec_lift.
  match goal with |- snd ((if ?c then _ else _) _) = _ => destruct c end;
    [reflexivity |].
  exec_lift. exec_lift.
  match goal with |- snd ((if ?c then _ else _) _) = _ => destruct c end;
    [reflexivity |].
  rewrite bind_lift, Hrid. cbv beta iota.
  exec_lift.
  rewrite bind_lift, Hinfo. cbv beta iota.
  exec_lift.
  rewrite bind_lift, Hicon. cbv beta iota.
  rewrite bind_lift.
  destruct (is_file icon) as [file |] eqn:Hfile; [| reflexivity].
  cbv beta iota.
  assert (Hguard : file && truthy rid = false).
  { destruct Hnot as [Hn | Hr]; [| rewrite Hr; apply andb_false_r].
    destruct file; [congruence | reflexivity]. }
  rewrite Hguard.
  destruct (is_link icon).
  - unfold bind at 1. rewrite bind_lift.
    destruct (link_branch info); [| reflexivity].
    unfold ret at 1. cbv beta iota.
    repeat exec_lift. reflexivity.
  - unfold bind at 1. unfold ret at 1. cbv beta iota.
    repeat exec_lift. reflexivity.
Qed.

(** X12.  Only a hit whose resource is classified as a file and has a
    resource id reaches the SDK: any other hit (link, other type, unknown
    resource, missing id) is processed without a single external call and
    without touching the memo, whether it ends in an entry or not. *)
Theorem only_file_hits_call_out resources score_threshold idx hit rid info icon
    st :
  get hit "rid" (VStr "") = Ok rid ->
  get_key resources rid (VDict []) = Ok info ->
  get info "icon" (VStr "") = Ok icon ->
  is_file icon <> Ok true \/ truthy rid = false ->
  snd (source_of_hit resources score_threshold idx hit st) = st.
Proof. apply non_file_hit_is_silent. Qed.

(* ------------------------------------------------------------------ *)
(** ** The HTTP client calls and the routes' failures *)

(** X13.  [nuclia_search] makes exactly one request, a GET on
    [{base}/kb/{kb}/search] with the configured headers and with the query
    and the size among its parameters, whatever the outcome; a network
    failure of that request is raised unchanged (nothing is retried). *)
Theorem nuclia_search_makes_one_request query size features filters faceted
    sort min_score vectorset st :
  exists params,
    snd (nuclia_search query size features filters faceted sort min_score
           vectorset st)
    = mkStore (calls st ++ [RequestsGet (NUCLIA_API_BASE ++ "/kb/" ++ KB ++ "/search")
                              HEADERS (VDict params)])%list
              (resources_cache st) /\
    assoc "query" params = Some (VStr query) /\
    assoc "size" params = Some (VInt size) /\
    (forall e,
       requests_get (calls st) (NUCLIA_API_BASE ++ "/kb/" ++ KB ++ "/search")
         (VDict params) = Raise e ->
       fst (nuclia_search query size features filters faceted sort min_score
              vectorset st) = Raise e).
Proof.
  unfold nuclia_search. eexists. split; [| split; [| split]].
  - unfold bind at 1. unfold external at 1.
    match goal with
    | |- context [requests_get ?h ?u ?p] => destruct (requests_get h u p) as [r |]
    end; [| reflexivity].
    rewrite bind_lift. destruct (raise_for_status r); reflexivity.
  - reflexivity.
  - reflexivity.
  - intros e He. unfold bind at 1. unfold external at 1. rewrite He. reflexivity.
Qed.

(** X14.  [nuclia_ask] makes exactly one request, a POST on
    [{base}/kb/{kb}/ask] whose body carries the query, whatever the outcome.
    In synchronous mode the request carries every configured header plus
    [x-synchronous: true]; otherwise it carries the configured headers as
    they are. *)
Theorem nuclia_ask_makes_one_request query context rephrase citations filters
    prompt features max_tokens synchronous st :
  exists hdrs payload,
    snd (nuclia_ask query context rephrase citations filters prompt features
           max_tokens synchronous st)
    = mkStore (calls st ++ [RequestsPost (NUCLIA_API_BASE ++ "/kb/" ++ KB ++ "/ask")
                              hdrs (VDict payload)])%list
              (resources_cache st) /\
    assoc "query" payload = Some (VStr query) /\
    (synchronous = true ->
     assoc "x-synchronous" hdrs = Some (VStr "true") /\
     forall k, k <> "x-synchronous" -> assoc k hdrs = assoc k HEADERS) /\
    (synchronous = false -> hdrs = HEADERS).
Proof.
  unfold nuclia_ask. do 2 eexists. split; [| split; [| split]].
  - unfold bind at 1. unfold external at 1.
    match goal with
    | |- context [requests_post ?h ?u ?hd ?p] =>
        destruct (requests_post h u hd p) as [r |]
    end; [| reflexivity].
    rewrite bind_lift. destruct (raise_for_status r); [| reflexivity].
    cbv beta iota. destruct synchronous; reflexivity.
  - reflexivity.
  - intros ->. split; [apply assoc_dict_set_same |].
    intros k Hk. apply assoc_dict_set_other. congruence.
  - intros ->. reflexivity.
Qed.

(** X15.  Whatever goes wrong while serving [POST /ask], the caller gets an
    [HTTPException] with status 502, never another exception or status. *)
Theorem ask_fails_only_with_502 body st e st' :
  ask body st = (Raise e, st') ->
  exists detail, e = HTTPException 502 detail.
Proof.
  unfold ask, try_except.
  match goal with
  | |- (let (_, _) := ?run in _) = _ -> _ => destruct run as [[v | e0] st1]
  end.
  - discriminate.
  - destruct e0; unfold raise; intros H; injection H as <- _; eauto.
Qed.

(** X16.  When the search request fails without an HTTP response (network
    failure, timeout), [POST /ask] answers 502 with the detail
    ["Error llamando a Claude: ..."], although the LLM was never called: the
    search request is the only external call made. *)
Theorem search_network_failure_reported_as_claude_error body st e :
  (forall url params, requests_get (calls st) url params = Raise e) ->
  (forall resp, e <> HTTPError resp) ->
  exists url params,
    ask body st
    = (Raise (HTTPException 502 ("Error llamando a Claude: " ++ str_exn e)),
       mkStore (calls st ++ [RequestsGet url HEADERS params])%list
               (resources_cache st)).
Proof.
  intros Hget Hnot. unfold ask, try_except, ask_agent.
  unfold bind at 1. unfold bind at 1. unfold nuclia_search.
  unfold bind at 1. unfold external at 1. rewrite Hget. cbv beta iota.
  do 2 eexists.
  destruct e; try reflexivity. exfalso. eapply Hnot. reflexivity.
Qed.

(** X17.  Whatever goes wrong while serving [POST /nuclia-ask], the caller
    gets an [HTTPException]: with the upstream status (502 when the HTTP
    error carries no response) and the upstream body cut to 600 characters
    when the failure is an HTTP error, and with status 500 otherwise. *)
Theorem nuclia_ask_endpoint_failures body st e st' :
  nuclia_ask_endpoint body st = (Raise e, st') ->
  (exists resp,
     e = HTTPException (http_error_status resp)
           ("Error en endpoint /ask de Nuclia ("
            ++ str_int (http_error_status resp) ++ "): "
            ++ http_error_detail resp)) \/
  (exists cause,
     (forall resp, cause <> HTTPError resp) /\
     e = HTTPException 500 ("Error procesando solicitud: " ++ str_exn cause)).
Proof.
  unfold nuclia_ask_endpoint, try_except.
  match goal with
  | |- (let (_, _) := ?run in _) = _ -> _ => destruct run as [[v | e0] st1]
  end.
  - discriminate.
  - destruct e0; unfold raise; intros H; injection H as <- _;
      try (right; eexists; split; cycle 1;
           [reflexivity | intros r; discriminate]).
    left. exists resp. reflexivity.
Qed.

(* ------------------------------------------------------------------ *)
(** ** The streamed body of a download *)

Lemma firstn_plus {A} (a b : nat) :
  forall l : list A, firstn (a + b) l = (firstn a l ++ firstn b (skipn a l))%list.
Proof.
  induction a as [| a IH]; intros l; simpl; [reflexivity |].
  destruct l as [| x l]; simpl.
  - now rewrite firstn_nil.
  - now rewrite IH.
Qed.

Lemma chunks_concat {A} (c : nat) (l : list A) :
  forall n,
    List.concat (map (fun k => firstn c (skipn (k * c) l)) (seq 0 n))
    = firstn (n * c) l.
Proof.
  induction n as [| n IH]; [reflexivity |].
  rewrite seq_S, map_app, concat_app, IH. simpl.
  rewrite app_nil_r, <- firstn_plus. f_equal. lia.
Qed.

Lemma chunk_count_covers (c len : nat) :
  (0 < c)%nat ->
  (len <= (len + c - 1) / c * c)%nat /\
  ((len + c - 1) / c * c < len + c)%nat.
Proof.
  intros Hc.
  pose proof (Nat.div_mod_eq (len + c - 1) c) as Hd.
  pose proof (Nat.mod_upper_bound (len + c - 1) c ltac:(lia)) as Hm.
  nia.
Qed.

Lemma chunks_sizes {A} (c : nat) (l : list A) :
  (0 < c)%nat ->
  Forall (fun chunk => (1 <= List.length chunk <= c)%nat)
         (map (fun k => firstn c (skipn (k * c) l))
              (seq 0 ((List.length l + c - 1) / c))).
Proof.
  intros Hc. apply Forall_forall. intros chunk Hin.
  apply in_map_iff in Hin. destruct Hin as (k & <- & Hk).
  apply in_seq in Hk.
  destruct (chunk_count_covers c (List.length l) Hc) as [_ Hup].
  rewrite length_firstn, length_skipn.
  assert (k * c + c <= (List.length l + c - 1) / c * c)%nat by nia.
  lia.
Qed.

(** X18.  A successful download is streamed back whole: the chunks of the
    body, put end to end, are exactly the fetched bytes; every chunk holds
    between 1 and 8192 bytes; and [Content-Length] is the number of bytes
    fetched. *)
Theorem download_streams_the_whole_file resource_id file_id st content :
  sdk_download_file (calls st) resource_id file_id = Ok content ->
  exists resp st',
    download_file resource_id file_id st = (Ok resp, st') /\
    List.concat (body_chunks resp) = content /\
    Forall (fun chunk => (1 <= List.length chunk <= 8192)%nat)
           (body_chunks resp) /\
    header "Content-Length" (headers resp)
      = Some (str_int (Z.of_nat (List.length content))).
Proof.
  intros Hsdk. pose proof (download_file_run resource_id file_id st) as Hrun.
  rewrite Hsdk in Hrun. destruct Hrun as (st' & Hrun).
  do 2 eexists. split; [exact Hrun |]. cbn [body_chunks headers].
  assert (Hc : (0 < 8192)%nat) by (apply Nat.ltb_lt; vm_compute; reflexivity).
  split; [| split].
  - unfold iter_bytes. cbv zeta. rewrite chunks_concat.
    apply firstn_all2. apply (chunk_count_covers _ _ Hc).
  - unfold iter_bytes. cbv zeta. apply chunks_sizes. exact Hc.
  - reflexivity.
Qed.

(** X19.  The file-download proxy fails exactly when the SDK download fails,
    and then, after that single call, answers with status 500 and the detail
    ["Error descargando archivo: ..."]. *)
Theorem download_failure_is_a_500 resource_id file_id st e :
  sdk_download_file (calls st) resource_id file_id = Raise e ->
  download_file resource_id file_id st
  = (Raise (HTTPException 500 ("Error descargando archivo: " ++ str_exn e)),
     mkStore (calls st ++ [SdkDownloadFile resource_id file_id])%list
             (resources_cache st)).
Proof.
  intros Hsdk.
  unfold download_file, try_except, download_resource_file.
  unfold bind at 1. unfold try_except at 1. unfold bind at 1.
  unfold external at 1. rewrite Hsdk. reflexivity.
Qed.

(* ------------------------------------------------------------------ *)
(** ** The normalizer's envelope *)

Lemma copy_key_dict k d res :
  copy_key k (VDict d) res = Ok (copied k d res).
Proof.
  unfold copy_key, copied, str_in, has_key, subscript.
  destruct (assoc k d); reflexivity.
Qed.

Lemma dict_set_keys k v d :
  In k (map fst d) -> map fst (dict_set k v d) = map fst d.
Proof.
  induction d as [| [k0 v0] d IH]; simpl; [intros [] |].
  intros [-> | Hin].
  - now rewrite String.eqb_refl.
  - destruct (String.eqb_spec k0 k) as [-> | Hne]; simpl; [reflexivity |].
    now rewrite IH.
Qed.

Lemma copied_keys k d res :
  In k (map fst res) -> map fst (copied k d res) = map fst res.
Proof.
  intros Hin. unfold copied. destruct (assoc k d); [| reflexivity].
  now apply dict_set_keys.
Qed.

Lemma copied_other k k' d res :
  k <> k' -> assoc k' (copied k d res) = assoc k' res.
Proof.
  intros Hne. unfold copied. destruct (assoc k d); [| reflexivity].
  now apply assoc_dict_set_other.
Qed.

Lemma copied_same k d res :
  assoc k (copied k d res)
  = match assoc k d with Some v => Some v | None => assoc k res end.
Proof.
  unfold copied. destruct (assoc k d); [| reflexivity].
  apply assoc_dict_set_same.
Qed.

(** X20.  For a provider response that is a JSON object, the normalizer
    returns an object with exactly the keys answer, sources, metadata,
    citations and relations, in that order.  [answer], [metadata],
    [citations] and [relations] are copied verbatim from the response when
    present and default to the empty string, [{}], [{}] and [[]] otherwise;
    [sources] is the empty list when the response has no [retrieval]. *)
Theorem normalizer_envelope d result :
  parse_nuclia_ask_response (VDict d) = Ok result ->
  exists res,
    result = VDict res /\
    map fst res = result_keys /\
    (forall k, In k ["answer"; "metadata"; "citations"; "relations"] ->
       assoc k res
       = Some (match assoc k d with Some v => v | None => result_default k end)) /\
    (assoc "retrieval" d = None -> assoc "sources" res = Some (VList [])).
Proof.
  unfold parse_nuclia_ask_response. intros H.
  rewrite copy_key_dict in H. cbn [rbind] in H.
  set (res1 := copied "answer" d _) in H.
  simpl str_in in H. cbn [rbind] in H.
  step_ok H.
  assert (Hblock :
    (a = res1 \/ exists sources, a = dict_set "sources" (VList sources) res1) /\
    (assoc "retrieval" d = None -> a = res1)).
  { unfold has_key in Hstep.
    destruct (assoc "retrieval" d) as [retrieval |].
    - split; [| discriminate].
      step_ok Hstep. step_ok Hstep.
      destruct a1.
      + do 3 step_ok Hstep. inversion Hstep. right. eauto.
      + inversion Hstep. now left.
    - inversion Hstep. auto. }
  clear Hstep. destruct Hblock as [Hform Hnone].
  rewrite copy_key_dict in H. cbn [rbind] in H.
  rewrite copy_key_dict in H. cbn [rbind] in H.
  rewrite copy_key_dict in H. cbn [rbind] in H.
  inversion H; subst result; clear H.
  eexists. split; [reflexivity |].
  assert (K1 : map fst res1 = result_keys).
  { subst res1. rewrite copied_keys; [reflexivity | simpl; auto 10]. }
  assert (Ka : map fst a = result_keys).
  { destruct Hform as [-> | (sources & ->)]; [exact K1 |].
    rewrite dict_set_keys; [exact K1 | rewrite K1; simpl; auto 10]. }
  assert (Aa : forall k, k <> "sources" -> assoc k a = assoc k res1).
  { intros k Hk. destruct Hform as [-> | (sources & ->)]; [reflexivity |].
    apply assoc_dict_set_other. congruence. }
  split; [| split].
  - assert (Km : map fst (copied "metadata" d a) = result_keys).
    { rewrite copied_keys; [exact Ka | rewrite Ka; simpl; auto 10]. }
    assert (Kc : map fst (copied "citations" d (copied "metadata" d a))
                 = result_keys).
    { rewrite copied_keys; [exact Km | rewrite Km; simpl; auto 10]. }
    rewrite copied_keys; [exact Kc | rewrite Kc; simpl; auto 10].
  - intros k Hk. simpl in Hk.
    destruct Hk as [<- | [<- | [<- | [<- | []]]]].
    + rewrite !copied_other by discriminate.
      rewrite Aa by discriminate. subst res1. rewrite copied_same.
      destruct (assoc "answer" d); reflexivity.
    + rewrite !copied_other by discriminate. rewrite copied_same.
      rewrite Aa by discriminate. subst res1.
      rewrite copied_other by discriminate.
      destruct (assoc "metadata" d); reflexivity.
    + rewrite copied_other by discriminate. rewrite copied_same.
      rewrite copied_other by discriminate.
      rewrite Aa by discriminate. subst res1.
      rewrite copied_other by discriminate.
      destruct (assoc "citations" d); reflexivity.
    + rewrite copied_same. rewrite !copied_other by discriminate.
      rewrite Aa by discriminate. subst res1.
      rewrite copied_other by discriminate.
      destruct (assoc "relations" d); reflexivity.
  - intros Hno. rewrite (Hnone Hno).
    rewrite !copied_other by discriminate. subst res1.
    rewrite copied_other by discriminate. reflexivity.
Qed.

Lemma nuclia_ask_streaming query context rephrase citations filters prompt
    features max_tokens st resp :
  (forall url hdrs payload, requests_post (calls st) url hdrs payload = Ok resp) ->
  raise_for_status resp = Ok tt ->
  exists url payload,
    nuclia_ask query context rephrase citations filters prompt features
      max_tokens false st
    = (Ok (VDict [("stream", iter_lines resp)]),
       mkStore (calls st ++ [RequestsPost url HEADERS payload])%list
               (resources_cache st)).
Proof.
  intros Hpost Hstatus. unfold nuclia_ask. do 2 eexists.
  unfold bind at 1. unfold external at 1. rewrite Hpost.
  rewrite bind_lift, Hstatus. reflexivity.
Qed.

(** X21.  In streaming mode ([synchronous = false]) the [/nuclia-ask] route
    still answers with the normalized envelope, but nothing of the
    provider's answer is in it: whatever the provider streams, [answer] is
    the empty string and [sources] the empty list, and the line iterator of
    the provider's response is handed on as it is under
    [raw_response.stream]. *)
Theorem streaming_mode_answers_empty body st resp :
  nq_synchronous body = Some false ->
  (forall url hdrs payload, requests_post (calls st) url hdrs payload = Ok resp) ->
  raise_for_status resp = Ok tt ->
  exists out st',
    nuclia_ask_endpoint body st = (Ok out, st') /\
    entry_field "answer" out = Some (VStr "") /\
    entry_field "sources" out = Some (VList []) /\
    entry_field "raw_response" out
      = Some (VDict [("stream", iter_lines resp)]).
Proof.
  intros Hsync Hpost Hstatus.
  unfold nuclia_ask_endpoint, try_except. rewrite Hsync. cbn [if_not_none].
  unfold bind at 1.
  match goal with
  | |- context [nuclia_ask ?q ?c ?r ?ci ?f ?p ?fe ?m false st] =>
      destruct (nuclia_ask_streaming q c r ci f p fe m st resp Hpost Hstatus)
        as (url & payload & Hs)
  end.
  rewrite Hs. cbv beta iota.
  rewrite bind_lift.
  change (parse_nuclia_ask_response
            (VDict [("stream", iter_lines resp)]))
    with (Ok (VDict [("answer", VStr ""); ("sources", VList []);
                     ("metadata", VDict []); ("citations", VDict []);
                     ("relations", VList [])])).
  cbv beta iota.
  do 2 eexists. split; [reflexivity |]. repeat split.
Qed.

(** X22.  [POST /ask] runs its stages in a fixed order on shared inputs: the
    search request first; then the LLM, called once with the question and
    the context built from the search payload (empty or not); then the
    Source Extractor, on that same payload and with the same max-chunk count
    and minimum score as the context.  The response carries the concatenated
    text parts as [answer] and the extractor's list as [sources]. *)
Theorem ask_pipeline body st search st1 context content_value parts answer
    sources st3 :
  let size := int_or (ask_size body) 30 in
  let max_chunks := int_or (ask_max_chunks body) 20 in
  let use_semantic := if_not_none (ask_use_semantic body) true in
  let min_score := float_or (ask_min_score body) 0 in
  let content := "Pregunta: " ++ ask_query body ++ nl ++ nl ++ "Contexto:"
                   ++ nl ++ context in
  nuclia_search (preprocess_query (ask_query body)) size
    (Some (if use_semantic then ["keyword"; "semantic"] else ["keyword"]))
    None None None (Some min_score) "multilingual-2024-05-06" st
    = (Ok search, st1) ->
  build_context search max_chunks true min_score = Ok context ->
  messages_create (calls st1) content = Ok content_value ->
  iter (py_or content_value (VList [])) = Ok parts ->
  join_values (map getattr_text parts) = Ok answer ->
  extract_sources_info search max_chunks min_score
    (mkStore (calls st1 ++ [MessagesCreate CLAUDE_MODEL INSTRUCTIONS content
                              800 (Qmake 2 10)])%list
             (resources_cache st1))
    = (Ok sources, st3) ->
  ask body st
  = (Ok (VDict [("answer", VStr answer);
                ("sources", VList sources);
                ("model", VStr CLAUDE_MODEL);
                ("nuclia_kb", VStr KB);
                ("params", VDict [("size", VInt size);
                                  ("max_chunks", VInt max_chunks);
                                  ("use_semantic", VBool use_semantic);
                                  ("min_score", VFloat min_score)])]),
     st3).
Proof.
  intros size max_chunks use_semantic min_score content
         Hsearch Hctx Hllm Hparts Hjoin Hextract.
  unfold ask, try_except, ask_agent.
  fold size. fold max_chunks. fold use_semantic. fold min_score.
  unfold bind at 1. unfold bind at 1. rewrite Hsearch. cbv beta iota.
  rewrite bind_lift, Hctx. cbv beta iota. fold content.
  unfold bind at 1. unfold external at 1. rewrite Hllm. cbv beta iota.
  rewrite bind_lift, Hparts. cbv beta iota.
  rewrite bind_lift, Hjoin. cbv beta iota.
  unfold bind at 1. rewrite Hextract. cbv beta iota.
  unfold ret at 1. cbv beta iota.
  reflexivity.
Qed.

(* ------------------------------------------------------------------ *)
(** ** The file descriptor of a downloadable entry *)

Lemma file_descriptor_shape url content_type file_size filename file_id d :
  file_descriptor url content_type file_size filename file_id = Ok d ->
  exists ct,
    content_type = VStr ct /\
    d = VDict [("download_url", url);
               ("content_type", VStr ct);
               ("size", file_size);
               ("filename", filename);
               ("file_id", VStr file_id);
               ("is_pdf", VBool (contains "pdf" (lower ct)));
               ("is_excel",
                VBool (contains "sheet" (lower ct) || contains "excel" (lower ct)));
               ("ttl", VInt 3600)].
Proof.
  unfold file_descriptor. intros H. step_ok H.
  destruct content_type; try discriminate Hstep.
  simpl in Hstep. injection Hstep as <-. injection H as <-.
  eexists. split; reflexivity.
Qed.

Lemma source_of_hit_download resources score_threshold idx hit st e st' d :
  source_of_hit resources score_threshold idx hit st = (Ok (Some e), st') ->
  entry_field "file" e = Some d ->
  exists u ct,
    ct <> "" /\
    entry_field "download_url" d = Some u /\
    entry_field "content_type" d = Some (VStr ct) /\
    entry_field "is_excel" d
      = Some (VBool (contains "sheet" (lower ct) || contains "excel" (lower ct))) /\
    entry_field "ttl" d = Some (VInt 3600) /\
    (truthy u = true -> entry_field "url" e = Some u).
Proof.
  unfold source_of_hit. intros H Hd.
  do 2 step_ok H.
  match type of H with (if ?c then _ else _) _ = _ => destruct c end;
    [apply ret_ok in H; destruct H; discriminate |].
  do 2 step_ok H.
  match type of H with (if ?c then _ else _) _ = _ => destruct c end;
    [apply ret_ok in H; destruct H; discriminate |].
  do 6 step_ok H.
  apply bind_ok in H. destruct H as ([url info] & st1 & Hbranch & H).
  do 4 step_ok H.
  apply ret_ok in H. destruct H as [H _]. inversion H; subst.
  assert (Hok : descriptor_ok url info).
  { match type of Hbranch with
    | (if ?c then _ else _) _ = _ => destruct c
    end.
    - eapply file_branch_descriptor; eassumption.
    - match type of Hbranch with
      | (if ?c then _ else _) _ = _ => destruct c
      end.
      + step_ok Hbranch. apply ret_ok in Hbranch. destruct Hbranch as [E _].
        inversion E. now left.
      + apply ret_ok in Hbranch. destruct Hbranch as [E _]. inversion E.
        now left. }
  match goal with
  | Hm : make_source _ _ _ _ _ _ _ _ _ _ _ = Ok _ |- _ =>
      pose proof (make_source_downloadable _ _ _ _ _ _ _ _ _ _ _ _ Hm)
        as (_ & Hf & _);
      apply make_source_fields in Hm; destruct Hm as (_ & _ & Hu & _)
  end.
  rewrite Hf in Hd. destruct (truthy info) eqn:T; [| discriminate Hd].
  injection Hd as <-.
  destruct Hok as [-> | (cty & sz & fn & fid & Tct & Hdesc)]; [discriminate T |].
  apply file_descriptor_shape in Hdesc. destruct Hdesc as (ct & -> & ->).
  exists url, ct. simpl.
  split; [intros ->; discriminate Tct |].
  repeat (split; [reflexivity |]).
  intros Tu. rewrite Hu, Tu. reflexivity.
Qed.

(** X23.  In every returned entry that has a file descriptor: the
    descriptor's content type is a non-empty string, [is_excel] tells
    whether the lower-cased content type contains "sheet" or "excel", [ttl]
    is 3600, and the entry's [url] is the descriptor's [download_url]
    whenever that URL is not empty. *)
Theorem downloadable_entries_point_to_the_file search_json max_chunks
    score_threshold st sources st' :
  extract_sources_info search_json max_chunks score_threshold st
    = (Ok sources, st') ->
  Forall (fun e =>
            forall d, entry_field "file" e = Some d ->
              exists u ct,
                ct <> "" /\
                entry_field "download_url" d = Some u /\
                entry_field "content_type" d = Some (VStr ct) /\
                entry_field "is_excel" d
                  = Some (VBool (contains "sheet" (lower ct)
                                 || contains "excel" (lower ct))) /\
                entry_field "ttl" d = Some (VInt 3600) /\
                (truthy u = true -> entry_field "url" e = Some u))
         sources.
Proof.
  intros H. apply extract_sources_info_ok in H.
  destruct H as (rr & resources & para & hits & rs & _ & _ & _ & _ & HF & ->).
  eapply Forall2_keep; [exact HF |].
  intros [idx hit] e (s1 & s2 & He) d Hd. simpl in He.
  eapply source_of_hit_download; eassumption.
Qed.

End Program.

(* ------------------------------------------------------------------ *)
(** ** The theorems on concrete runs *)

Import Scenario.

Lemma downloadable_iff_file_witness :
  exists sources st',
    extract_sources_info base kb hdrs repr sdk_get_ok sdk_url_ok http_down
      payload 20 (Qmake 2 10) st0 = (Ok sources, st') /\
    map has_file_descriptor sources = [true; false] /\
    Forall (fun e =>
              (exists b, entry_field "is_downloadable" e = Some (VBool b)) /\
              (has_file_descriptor e = true <->
               entry_field "is_downloadable" e = Some (VBool true)))
           sources.
Proof.
  do 2 eexists. split; [vm_compute; reflexivity |]. split; [reflexivity |].
  eapply (downloadable_iff_file base kb hdrs repr sdk_get_ok sdk_url_ok http_down
            payload 20 (Qmake 2 10) st0).
  vm_compute. reflexivity.
Defined.

Lemma window_bounds_outputs_witness :
  (exists blocks,
     build_context_blocks repr payload 2 true (Qmake 2 10) = Ok blocks /\
     (List.length blocks <= 2)%nat) /\
  (exists sources st',
     extract_sources_info base kb hdrs repr sdk_get_ok sdk_url_ok http_down
       payload 2 (Qmake 2 10) st0 = (Ok sources, st') /\
     (List.length sources <= 2)%nat).
Proof.
  destruct (window_bounds_outputs base kb hdrs repr sdk_get_ok sdk_url_ok
              http_down payload 2 true (Qmake 2 10)) as [HB HS]; [lia |].
  split.
  - eexists. split; [vm_compute; reflexivity |].
    match goal with
    | |- (List.length ?b <= _)%nat =>
        destruct (HB b) as (para & all & res & rs & _ & _ & _ & _ & Hlen)
    end; [vm_compute; reflexivity | exact Hlen].
  - do 2 eexists. split; [vm_compute; reflexivity |].
    match goal with
    | |- (List.length ?l <= _)%nat =>
        destruct (HS st0 l _ ltac:(vm_compute; reflexivity))
          as (rr & para & all & res & rs & _ & _ & _ & _ & _ & Hlen)
    end.
    exact Hlen.
Defined.

(** Outside the request schema ([max_chunks] between 1 and 50): with a
    negative [max_chunks] the slice [para[:max_chunks]] counts from the end,
    so [-1] on four hits runs the loop on the first three. *)
Lemma negative_max_chunks_counts_from_the_end :
  exists sources st',
    extract_sources_info base kb hdrs repr sdk_get_ok sdk_url_ok http_down
      payload (-1) 0 st0 = (Ok sources, st') /\
    map entry_id sources = [1%Z; 2%Z].
Proof.
  do 2 eexists. split; [vm_compute; reflexivity | reflexivity].
Qed.

(** C5 fails as stated: with the first hit of the window filtered out (empty
    text), the only entry returned has id 2, not 1. *)
Lemma ids_not_consecutive :
  exists sources st',
    extract_sources_info base kb hdrs repr sdk_get_ok sdk_url_ok http_down
      payload_gap 20 0 st0 = (Ok sources, st') /\
    map entry_id sources = [2%Z] /\
    ~ (forall i e, nth_error sources i = Some e ->
                   entry_id e = (Z.of_nat i + 1)%Z).
Proof.
  do 2 eexists. split; [vm_compute; reflexivity |]. split; [reflexivity |].
  intros H. specialize (H 0%nat _ eq_refl). vm_compute in H. discriminate H.
Qed.

Lemma ids_are_window_positions_witness :
  exists sources st',
    extract_sources_info base kb hdrs repr sdk_get_ok sdk_url_ok http_down
      payload 20 0 st0 = (Ok sources, st') /\
    map entry_id sources = [1%Z; 2%Z; 4%Z] /\
    exists positions,
      Forall2 (fun k e => entry_id e = (Z.of_nat k + 1)%Z) positions sources /\
      StronglySorted lt positions.
Proof.
  do 2 eexists. split; [vm_compute; reflexivity |]. split; [reflexivity |].
  match goal with
  | |- exists positions, Forall2 _ positions ?l /\ _ =>
      destruct (ids_are_window_positions base kb hdrs repr sdk_get_ok sdk_url_ok
                  http_down payload 20 0 st0 l _ ltac:(vm_compute; reflexivity))
        as (rr & res & para & hits & positions & _ & _ & _ & HF & Hsorted & _)
  end.
  exists positions. split; [| exact Hsorted].
  eapply Forall2_impl; [| exact HF]. intros k e [Hid _]. exact Hid.
Defined.

(** C4 fails as stated: on a payload with both top-level paragraph results
    and [raw_response.retrieval_results], the nested shape is the one read. *)
Lemma top_level_not_preferred :
  select_retrieval_results payload_both <> Ok payload_both /\
  select_retrieval_results payload_both = Ok nested_results /\
  exists sources st',
    extract_sources_info base kb hdrs repr sdk_get_ok sdk_url_ok http_down
      payload_both 20 0 st0 = (Ok sources, st') /\
    map (entry_field "text") sources = [Some (VStr "anidado")].
Proof.
  split; [| split].
  - vm_compute. intros H. discriminate H.
  - reflexivity.
  - do 2 eexists. split; [vm_compute; reflexivity | reflexivity].
Qed.

Lemma shape_priority_witness :
  select_retrieval_results payload_both = Ok nested_results.
Proof.
  destruct (shape_priority payload_both raw_response eq_refl) as [H1 _].
  apply H1; reflexivity.
Defined.




(** C3.  On a hit without a ["score"] field and a threshold of 0.5, the
    Context Builder emits the hit's block (it defaults the score to 1.0)
    while the Source Extractor returns no entry for it (it defaults the score
    to 0.0): the two do not apply the same filter. *)
Theorem missing_score_filtered_differently :
  build_context_blocks repr payload_noscore 20 true (Qmake 1 2) = Ok ["hola"] /\
  extract_sources_info base kb hdrs repr sdk_get_ok sdk_url_ok http_down
    payload_noscore 20 (Qmake 1 2) st0 = (Ok [], st0).
Proof. split; vm_compute; reflexivity. Qed.

(** C8 fails as stated: on an upstream 404, [/ask] answers with status 502. *)
Lemma ask_masks_upstream_status :
  status_code not_found = 404%Z /\
  exists detail st',
    ask base kb hdrs model instructions repr str_exn sdk_get_ok sdk_url_ok
      http_get_404 llm_ok preprocess ask_body st0
    = (Raise (HTTPException 502 detail), st') /\
    (502 <> status_code not_found)%Z.
Proof.
  split; [reflexivity |].
  do 2 eexists. split; [vm_compute; reflexivity |]. discriminate.
Qed.

Lemma upstream_failure_surfaced_witness :
  (exists st',
     ask base kb hdrs model instructions repr str_exn sdk_get_ok sdk_url_ok
       http_get_404 llm_ok preprocess ask_body st0
     = (Raise (HTTPException 502 "Error consultando Nuclia (404): kb not found"),
        st') /\
     List.length (calls st') = 1%nat) /\
  (exists st',
     nuclia_ask_endpoint base kb hdrs str_exn http_post_503 line_iterator
      nuclia_ask_body st0
     = (Raise (HTTPException 503
                 "Error en endpoint /ask de Nuclia (503): try later"),
        st') /\
     List.length (calls st') = 1%nat).
Proof.
  destruct (upstream_failure_surfaced base kb hdrs model instructions repr
              str_exn sdk_get_ok sdk_url_ok http_get_404 http_post_503 llm_ok
              line_iterator preprocess) as (Hask & Hnuclia & _).
  split.
  - destruct (Hask ask_body st0 not_found) as (url & params & H);
      [reflexivity | simpl; lia |].
    eexists. split; [exact H | reflexivity].
  - destruct (Hnuclia nuclia_ask_body st0 unavailable) as (url & h & b & H);
      [reflexivity | simpl; lia |].
    eexists. split; [exact H | reflexivity].
Defined.

Lemma ask_sources_round_trip_witness :
  exists result sources,
    parse_nuclia_ask_response ask_response = Ok result /\
    entry_field "sources" result = Some (VList sources) /\
    List.length sources = 3%nat.
Proof.
  destruct (ask_sources_round_trip ask_response ask_retrieval ask_results
              ask_items eq_refl eq_refl eq_refl) as [Hnum Hret].
  destruct Hret as (result & Hres).
  { repeat constructor; eexists; reflexivity. }
  destruct (Hnum result Hres) as (sources & Hs & Hlen & _).
  exists result, sources. auto.
Defined.

Lemma download_is_pdf_named_octet_stream_witness :
  exists resp st',
    download_file str_exn sdk_download_ok "r1" "f1" st0 = (Ok resp, st') /\
    media_type resp = VStr "application/octet-stream" /\
    header "Content-Disposition" (headers resp)
      = Some ("attachment; filename=" ++ dquote ++ "r1_f1.pdf" ++ dquote).
Proof.
  do 2 eexists. split; [vm_compute; reflexivity |].
  match goal with
  | |- media_type ?r = _ /\ _ =>
      destruct (download_is_pdf_named_octet_stream str_exn sdk_download_ok
                  "r1" "f1" st0 r _ ltac:(vm_compute; reflexivity))
        as (Hm & Hh & _)
  end.
  split; [exact Hm | exact Hh].
Defined.

(* ------------------------------------------------------------------ *)
(** ** Further properties on concrete runs *)

Lemma context_blocks_pass_the_filter_witness :
  exists blocks,
    build_context_blocks repr payload_nbsp 20 false (Qmake 2 10) = Ok blocks /\
    blocks = ["dos"] /\
    exists para hits,
      paragraph_results payload_nbsp = Ok para /\
      slice_iter para 20 = Ok hits /\
      Forall (fun b =>
                exists hit score raw text header,
                  In hit hits /\
                  get hit "score" (VFloat 1) = Ok score /\
                  lt_float score (Qmake 2 10) = Ok false /\
                  get hit "text" VNone = Ok raw /\
                  py_strip (py_or raw (VStr "")) = Ok text /\
                  text <> "" /\
                  b = header ++ text)
             blocks.
Proof.
  eexists. split; [vm_compute; reflexivity |]. split; [reflexivity |].
  apply (context_blocks_pass_the_filter repr payload_nbsp 20 false
           (Qmake 2 10)).
  vm_compute. reflexivity.
Defined.

Lemma filters_agree_on_scored_hits_witness :
  context_block repr resources true (Qmake 1 2)
    (VDict [("text", VStr "tres"); ("score", VFloat (Qmake 1 10))]) = Ok None <->
  source_of_hit base kb hdrs repr sdk_get_ok sdk_url_ok http_down resources
    (Qmake 1 2) 0
    (VDict [("text", VStr "tres"); ("score", VFloat (Qmake 1 10))]) st0
  = (Ok None, st0).
Proof.
  apply (filters_agree_on_scored_hits base kb hdrs repr sdk_get_ok sdk_url_ok
           http_down).
  left. eexists. reflexivity.
Defined.

Lemma nothing_survives_nothing_emitted_witness :
  build_context repr payload_dropped 20 true (Qmake 1 2) = Ok "" /\
  extract_sources_info base kb hdrs repr sdk_get_ok sdk_url_ok http_down
    payload_dropped 20 (Qmake 1 2) st0 = (Ok [], st0).
Proof.
  eapply (nothing_survives_nothing_emitted base kb hdrs repr sdk_get_ok
            sdk_url_ok http_down);
    [reflexivity | reflexivity | reflexivity |].
  repeat constructor; eexists; (split; [reflexivity |]);
    (split; [left; eexists; reflexivity | vm_compute; reflexivity]).
Defined.

Lemma get_nuclia_resource_falls_back_to_http_witness :
  get_nuclia_resource base kb hdrs repr sdk_get_down http_get_404 (VStr "r1") st0
  = (Raise (HTTPError (Some not_found)),
     mkStore [SdkResourceGet (VStr "r1");
              RequestsGet "https://nuclia.cloud/api/v1/kb/kb1/resource/r1" hdrs
                VNone] []).
Proof.
  destruct (get_nuclia_resource_falls_back_to_http base kb hdrs repr sdk_get_down
              http_get_404 (VStr "r1") st0) as [_ Hfail].
  rewrite (Hfail ExternalError eq_refl). reflexivity.
Defined.

Lemma get_temporal_download_url_never_raises_witness :
  get_temporal_download_url base kb repr sdk_url_down (VStr "r1") "f1" 3600 st0
  = (Ok (VStr "https://nuclia.cloud/api/v1/kb/kb1/resource/r1/file/f1/download"),
     mkStore [SdkTemporalDownloadUrl (VStr "r1") "f1" 3600] []).
Proof.
  destruct (get_temporal_download_url_never_raises base kb repr sdk_url_down
              (VStr "r1") "f1" 3600 st0) as (u & Hrun & _ & Hfail).
  rewrite Hrun, (Hfail ExternalError eq_refl). reflexivity.
Defined.

Lemma lookup_is_memoised_witness :
  exists details st1,
    cached_resource base kb hdrs repr sdk_get_ok http_down (VStr "r1") st0
      = (Ok details, st1) /\
    calls st1 = [SdkResourceGet (VStr "r1")] /\
    cached_resource base kb hdrs repr sdk_get_ok http_down (VStr "r1") st1
      = (Ok details, st1).
Proof.
  do 2 eexists. split; [vm_compute; reflexivity |]. split; [reflexivity |].
  destruct (lookup_is_memoised base kb hdrs repr sdk_get_ok http_down "r1" st0)
    as [Hmemo _].
  apply Hmemo. vm_compute. reflexivity.
Defined.

Lemma scan_files_requests_at_most_one_url_witness :
  exists out st',
    scan_files base kb repr sdk_url_ok (VStr "r1") (VStr "Guia") file_listing st0
      = (out, st') /\
    calls st' = [SdkTemporalDownloadUrl (VStr "r1") "f1" 3600] /\
    (resources_cache st' = resources_cache st0 /\
     ((calls st' = calls st0 /\
       (out = Ok (VStr "", VNone) \/ exists e, out = Raise e)) \/
      (exists file_id,
         In file_id (map fst file_listing) /\
         calls st'
         = (calls st0 ++ [SdkTemporalDownloadUrl (VStr "r1") file_id 3600])%list))).
Proof.
  do 2 eexists. split; [vm_compute; reflexivity |]. split; [reflexivity |].
  apply (scan_files_requests_at_most_one_url base kb repr sdk_url_ok
           (VStr "r1") (VStr "Guia") file_listing st0).
  vm_compute. reflexivity.
Defined.

Lemma file_branch_never_raises_witness :
  exists url info st',
    file_branch base kb hdrs repr sdk_get_down sdk_url_ok http_down
      (VStr "r1") (VStr "Guia") st0 = (Ok (url, info), st') /\
    ((url = VStr "" /\ info = VNone) \/
     (truthy info = true /\
      entry_field "download_url" info = Some url /\
      entry_field "ttl" info = Some (VInt 3600))).
Proof.
  apply (file_branch_never_raises base kb hdrs repr sdk_get_down sdk_url_ok
           http_down).
Defined.

Lemma link_url_priority_witness :
  link_branch (VDict link_info) = Ok (VStr "/docs/portal").
Proof.
  destruct (link_url_priority link_info) as [_ Hprio].
  rewrite (Hprio _ _ eq_refl eq_refl). reflexivity.
Defined.

Lemma entries_url_invariants_witness :
  exists sources st',
    extract_sources_info base kb hdrs repr sdk_get_ok sdk_url_ok http_down
      payload 20 0 st0 = (Ok sources, st') /\
    map (entry_field "url_type") sources
      = [Some (VStr "external"); Some (VStr "external"); Some (VStr "nuclia")] /\
    Forall (fun e =>
              exists url url_type resource_id,
                entry_field "url" e = Some url /\
                entry_field "has_url" e = Some (VBool (truthy url)) /\
                entry_field "url_type" e = Some (VStr url_type) /\
                In url_type url_types /\
                (url_type = "none" <-> truthy url = false) /\
                entry_field "resource_id" e = Some resource_id /\
                (truthy resource_id = true -> truthy url = true))
           sources.
Proof.
  do 2 eexists. split; [vm_compute; reflexivity |]. split; [reflexivity |].
  eapply (entries_url_invariants base kb hdrs repr sdk_get_ok sdk_url_ok
            http_down payload 20 0 st0).
  vm_compute. reflexivity.
Defined.

Lemma entry_texts_are_trimmed_witness :
  exists sources st',
    extract_sources_info base kb hdrs repr sdk_get_ok sdk_url_ok http_down
      payload_nbsp 20 0 st0 = (Ok sources, st') /\
    map (entry_field "text") sources = [Some (VStr "dos")] /\
    Forall (fun e =>
              exists text,
                entry_field "text" e = Some (VStr text) /\
                text <> "" /\
                no_leading_space text /\
                no_trailing_space text /\
                strip text = text)
           sources.
Proof.
  do 2 eexists. split; [vm_compute; reflexivity |]. split; [reflexivity |].
  eapply (entry_texts_are_trimmed base kb hdrs repr sdk_get_ok sdk_url_ok
            http_down payload_nbsp 20 0 st0).
  vm_compute. reflexivity.
Defined.

Lemma only_file_hits_call_out_witness :
  snd (source_of_hit base kb hdrs repr sdk_get_ok sdk_url_ok http_down
         resources 0 3 other_hit st0) = st0.
Proof.
  eapply (only_file_hits_call_out base kb hdrs repr sdk_get_ok sdk_url_ok
            http_down); [reflexivity | reflexivity | reflexivity |].
  left. discriminate.
Defined.

Lemma ask_fails_only_with_502_witness :
  exists e st',
    ask base kb hdrs model instructions repr str_exn sdk_get_ok sdk_url_ok
      http_down llm_ok preprocess ask_body st0 = (Raise e, st') /\
    exists detail, e = HTTPException 502 detail.
Proof.
  do 2 eexists. split; [vm_compute; reflexivity |].
  eapply (ask_fails_only_with_502 base kb hdrs model instructions repr str_exn
            sdk_get_ok sdk_url_ok http_down llm_ok preprocess ask_body st0).
  vm_compute. reflexivity.
Defined.

Lemma search_network_failure_reported_as_claude_error_witness :
  exists st',
    ask base kb hdrs model instructions repr str_exn sdk_get_ok sdk_url_ok
      http_down llm_ok preprocess ask_body st0
    = (Raise (HTTPException 502 "Error llamando a Claude: error"), st') /\
    List.length (calls st') = 1%nat.
Proof.
  destruct (search_network_failure_reported_as_claude_error base kb hdrs model
              instructions repr str_exn sdk_get_ok sdk_url_ok http_down llm_ok
              preprocess ask_body st0 RequestException)
    as (url & params & H); [reflexivity | discriminate |].
  eexists. split; [exact H | reflexivity].
Defined.

Lemma nuclia_ask_endpoint_failures_witness :
  exists e st',
    nuclia_ask_endpoint base kb hdrs str_exn http_post_down line_iterator
      nuclia_ask_body st0
      = (Raise e, st') /\
    e = HTTPException 500 "Error procesando solicitud: error".
Proof.
  do 2 eexists. split; [vm_compute; reflexivity |].
  destruct (nuclia_ask_endpoint_failures base kb hdrs str_exn http_post_down line_iterator
              nuclia_ask_body st0 _ _ ltac:(vm_compute; reflexivity))
    as [(resp & H) | (cause & _ & H)]; [| reflexivity].
  reflexivity.
Defined.

Lemma download_streams_the_whole_file_witness :
  exists resp st',
    download_file str_exn sdk_download_ok "r1" "f1" st0 = (Ok resp, st') /\
    List.concat (body_chunks resp) = [Byte.x50; Byte.x4b; Byte.x03; Byte.x04] /\
    header "Content-Length" (headers resp) = Some "4".
Proof.
  destruct (download_streams_the_whole_file str_exn sdk_download_ok "r1" "f1"
              st0 _ eq_refl) as (resp & st' & H & Hbody & _ & Hlen).
  exists resp, st'. auto.
Defined.

Lemma download_failure_is_a_500_witness :
  download_file str_exn sdk_download_down "r1" "f1" st0
  = (Raise (HTTPException 500 "Error descargando archivo: error"),
     mkStore [SdkDownloadFile "r1" "f1"] []).
Proof.
  apply (download_failure_is_a_500 str_exn sdk_download_down "r1" "f1" st0
           ExternalError eq_refl).
Defined.

Lemma normalizer_envelope_witness :
  exists res,
    parse_nuclia_ask_response ask_response = Ok (VDict res) /\
    map fst res = result_keys /\
    assoc "answer" res = Some (VStr "respuesta") /\
    assoc "citations" res = Some (VDict []).
Proof.
  destruct (normalizer_envelope
              [("answer", VStr "respuesta"); ("retrieval", ask_retrieval)]
              _ ltac:(vm_compute; reflexivity))
    as (res & Hres & Hkeys & Hcopy & _).
  exists res. split; [rewrite <- Hres; vm_compute; reflexivity |].
  split; [exact Hkeys |]. split.
  - rewrite (Hcopy "answer"); [reflexivity | simpl; tauto].
  - rewrite (Hcopy "citations"); [reflexivity | simpl; tauto].
Defined.

Lemma streaming_mode_answers_empty_witness :
  exists out st',
    nuclia_ask_endpoint base kb hdrs str_exn http_post_200 line_iterator
      streaming_body st0
      = (Ok out, st') /\
    entry_field "answer" out = Some (VStr "") /\
    entry_field "sources" out = Some (VList []) /\
    entry_field "raw_response" out
      = Some (VDict [("stream", line_iterator stream_ok)]).
Proof.
  destruct (streaming_mode_answers_empty base kb hdrs str_exn http_post_200 line_iterator
              streaming_body st0 stream_ok eq_refl ltac:(reflexivity) eq_refl)
    as (out & st' & H & Ha & Hs & Hr).
  exists out, st'. auto.
Defined.

Lemma ask_pipeline_witness :
  exists out st',
    ask base kb hdrs model instructions repr str_exn sdk_get_ok sdk_url_ok
      http_get_200 llm_ok preprocess ask_body st0 = (Ok out, st') /\
    entry_field "answer" out = Some (VStr "respuesta") /\
    List.length (calls st') = 4%nat.
Proof.
  do 2 eexists. split.
  - eapply (ask_pipeline base kb hdrs model instructions repr str_exn sdk_get_ok
              sdk_url_ok http_get_200 llm_ok preprocess ask_body st0);
      vm_compute; reflexivity.
  - split; reflexivity.
Defined.

Lemma downloadable_entries_point_to_the_file_witness :
  exists sources st',
    extract_sources_info base kb hdrs repr sdk_get_ok sdk_url_ok http_down
      payload 20 (Qmake 2 10) st0 = (Ok sources, st') /\
    map has_file_descriptor sources = [true; false] /\
    Forall (fun e =>
              forall d, entry_field "file" e = Some d ->
                exists u ct,
                  ct <> "" /\
                  entry_field "download_url" d = Some u /\
                  entry_field "content_type" d = Some (VStr ct) /\
                  entry_field "is_excel" d
                    = Some (VBool (contains "sheet" (lower ct)
                                   || contains "excel" (lower ct))) /\
                  entry_field "ttl" d = Some (VInt 3600) /\
                  (truthy u = true -> entry_field "url" e = Some u))
           sources.
Proof.
  do 2 eexists. split; [vm_compute; reflexivity |]. split; [reflexivity |].
  eapply (downloadable_entries_point_to_the_file base kb hdrs repr sdk_get_ok
            sdk_url_ok http_down payload 20 (Qmake 2 10) st0).
  vm_compute. reflexivity.
Defined.
